(** * csr_crt: signing a certificate request with a CA key (src/core.c)

    A shallow embedding of [csr_crt], the one Lua-callable function of
    [core.c] that does real work.  The function is straight-line C with a
    single cleanup label, calling into two external libraries (the Lua C
    API and OpenSSL).  It is embedded as a program in a small state and
    exit monad, statement by statement; the libraries are not part of the
    repository and appear as an explicit environment [Env] (what parsing,
    verification, signing, serialisation, the clock and the allocator
    answer) together with an instrumented memory in which every object the
    function acquires is an entry of a finite map.

    [init_crypto], the other Lua-callable function, is embedded as a
    function on what outlives a call: the error stream and the
    registrations made in the library.  [luaopen_core] only builds the
    table of these two functions and is not modelled.

    Modelling decisions, all of them about the libraries:
    - Calls whose result the source tests can fail: parsers, verification,
      signing and serialisation by the data ([pem_*], [req_verify],
      [sign_cert], [pem_of_x509]); the others for lack of resources, as told
      by [lib_fails] at the sequence number of the call.
    - Calls whose result the source does not test ([BIO_new_mem_buf],
      [EVP_PKEY_new], [ASN1_INTEGER_new], [BIO_new], [lua_pushlstring]) are
      taken on their success path.
    - The allocator is instrumented: releasing an address that is not live
      is recorded as a [violation] and changes nothing else.  Reading
      through a pointer that is not live (in particular [NULL]) ends the
      run with [Segfault].  In the program such a release is undefined:
      from the first violation recorded on, a run of the model tells
      nothing about the program.
    - The automatic variables read at the cleanup label are declared after
      the first [goto]; their contents on entry are indeterminate and are
      an input of the model ([Frame]).  A jump to the label made before
      one of them is assigned hands its content on entry to a release
      function, unless it is [NULL].
    - The trace lists the calls of the pipeline, those named in
      [csr_crt_calls], and no other: not the calls whose result the
      source does not test (other than [PEM_read_bio_X509] and
      [lua_pushlstring], which are listed), not the accessors of the
      validity fields, and not the release functions. *)

From Stdlib Require Import ZArith Lia String Ascii.
From stdpp Require Import base gmap list strings.

Local Open Scope string_scope.
Local Open Scope list_scope.

(** ** Data *)

(** Addresses of library objects; [0] is the null pointer. *)
Definition ptr := N.
Definition NULL : ptr := 0%N.

Inductive EVP_MD := EVP_sha1 | EVP_sha256 | EVP_sha512.

Inductive BIO_METHOD := BIO_s_mem.

(** Library calls of the pipeline, in the spelling of the source. *)
Inductive call :=
| PEM_read_bio_RSAPrivateKey_ | PEM_read_bio_X509_ | PEM_read_bio_X509_REQ_
| X509_new_ | X509_set_version_ | X509_set_pubkey_ | X509_set_serialNumber_
| X509_REQ_get_subject_name_ | X509_set_subject_name_
| X509_get_subject_name_ | X509_set_issuer_name_
| X509_REQ_get_pubkey_ | X509_REQ_verify_
| X509_gmtime_adj_ | X509_sign_ | PEM_write_bio_X509_ | lua_pushlstring_.

(** Lines on the error stream: [Printed s] is [fprintf(stderr, s)];
    [Described p] is [err_descr_to_stderr(p)], which prints [p], the words
    "due to:" and the library's text for its latest error. *)
Inductive diag := Printed (s : string) | Described (pattern : string).

Inductive violation := DoubleFree (p : ptr) | InvalidFree (p : ptr).

(** The automatic variables read at the cleanup label. *)
Record Frame := mkFrame {
  pkeybio : ptr; pKey : ptr; cacertbio : ptr; cacert : ptr; req_pubkey : ptr;
  reqbio : ptr; certreq : ptr; newcert : ptr; outbio : ptr
}.

Definition set_pkeybio (v : ptr) (f : Frame) : Frame :=
  mkFrame v (pKey f) (cacertbio f) (cacert f) (req_pubkey f) (reqbio f) (certreq f) (newcert f) (outbio f).
Definition set_pKey (v : ptr) (f : Frame) : Frame :=
  mkFrame (pkeybio f) v (cacertbio f) (cacert f) (req_pubkey f) (reqbio f) (certreq f) (newcert f) (outbio f).
Definition set_cacertbio (v : ptr) (f : Frame) : Frame :=
  mkFrame (pkeybio f) (pKey f) v (cacert f) (req_pubkey f) (reqbio f) (certreq f) (newcert f) (outbio f).
Definition set_cacert (v : ptr) (f : Frame) : Frame :=
  mkFrame (pkeybio f) (pKey f) (cacertbio f) v (req_pubkey f) (reqbio f) (certreq f) (newcert f) (outbio f).
Definition set_req_pubkey (v : ptr) (f : Frame) : Frame :=
  mkFrame (pkeybio f) (pKey f) (cacertbio f) (cacert f) v (reqbio f) (certreq f) (newcert f) (outbio f).
Definition set_reqbio (v : ptr) (f : Frame) : Frame :=
  mkFrame (pkeybio f) (pKey f) (cacertbio f) (cacert f) (req_pubkey f) v (certreq f) (newcert f) (outbio f).
Definition set_certreq (v : ptr) (f : Frame) : Frame :=
  mkFrame (pkeybio f) (pKey f) (cacertbio f) (cacert f) (req_pubkey f) (reqbio f) v (newcert f) (outbio f).
Definition set_newcert (v : ptr) (f : Frame) : Frame :=
  mkFrame (pkeybio f) (pKey f) (cacertbio f) (cacert f) (req_pubkey f) (reqbio f) (certreq f) v (outbio f).
Definition set_outbio (v : ptr) (f : Frame) : Frame :=
  mkFrame (pkeybio f) (pKey f) (cacertbio f) (cacert f) (req_pubkey f) (reqbio f) (certreq f) (newcert f) v.

(** How a statement ends. *)
Inductive res (A : Type) :=
| Val (a : A)          (* the statement completed *)
| Goto_error           (* [goto __error] *)
| Lua_error            (* a Lua error was raised: control leaves [csr_crt] *)
| Segfault.            (* an invalid address was read *)
Arguments Val {A} a.
Arguments Goto_error {A}.
Arguments Lua_error {A}.
Arguments Segfault {A}.

Definition is_null {A} (o : option A) : bool :=
  match o with Some _ => false | None => true end.

(** The two ends of the validity of the certificate at [x]. *)
Inductive ASN1_TIME := notBefore_of (x : ptr) | notAfter_of (x : ptr).
Definition X509_get_notBefore (x : ptr) : ASN1_TIME := notBefore_of x.
Definition X509_get_notAfter (x : ptr) : ASN1_TIME := notAfter_of x.

Section Model.

(** Distinguished names, keys and Lua numbers are opaque to [csr_crt]. *)
Context {Name Key Number : Type}.

(** The fields of a certificate that [csr_crt] reads or writes; [None] is
    a field that has not been assigned. *)
Record X509 := mkX509 {
  x_version : option Z;
  x_serialNumber : option Z;
  x_subject : option Name;
  x_issuer : option Name;
  x_pubkey : option Key;
  x_notBefore : option Z;
  x_notAfter : option Z;
  x_signature : option (EVP_MD * string)
}.

(** A certificate request: subject, embedded public key ([None] when the
    key cannot be unpacked) and self-signature. *)
Record X509_REQ := mkX509_REQ {
  r_subject : option Name;
  r_pubkey : option Key;
  r_signature : string
}.

Definition X509_empty : X509 :=
  mkX509 None None None None None None None None.

Definition with_version (v : Z) (c : X509) : X509 :=
  mkX509 (Some v) (x_serialNumber c) (x_subject c) (x_issuer c) (x_pubkey c)
         (x_notBefore c) (x_notAfter c) (x_signature c).
Definition with_serialNumber (n : Z) (c : X509) : X509 :=
  mkX509 (x_version c) (Some n) (x_subject c) (x_issuer c) (x_pubkey c)
         (x_notBefore c) (x_notAfter c) (x_signature c).
Definition with_subject (n : Name) (c : X509) : X509 :=
  mkX509 (x_version c) (x_serialNumber c) (Some n) (x_issuer c) (x_pubkey c)
         (x_notBefore c) (x_notAfter c) (x_signature c).
Definition with_issuer (n : Name) (c : X509) : X509 :=
  mkX509 (x_version c) (x_serialNumber c) (x_subject c) (Some n) (x_pubkey c)
         (x_notBefore c) (x_notAfter c) (x_signature c).
Definition with_pubkey (k : Key) (c : X509) : X509 :=
  mkX509 (x_version c) (x_serialNumber c) (x_subject c) (x_issuer c) (Some k)
         (x_notBefore c) (x_notAfter c) (x_signature c).
Definition with_notBefore (t : Z) (c : X509) : X509 :=
  mkX509 (x_version c) (x_serialNumber c) (x_subject c) (x_issuer c) (x_pubkey c)
         (Some t) (x_notAfter c) (x_signature c).
Definition with_notAfter (t : Z) (c : X509) : X509 :=
  mkX509 (x_version c) (x_serialNumber c) (x_subject c) (x_issuer c) (x_pubkey c)
         (x_notBefore c) (Some t) (x_signature c).
Definition with_signature (md : EVP_MD) (sg : string) (c : X509) : X509 :=
  mkX509 (x_version c) (x_serialNumber c) (x_subject c) (x_issuer c) (x_pubkey c)
         (x_notBefore c) (x_notAfter c) (Some (md, sg)).

(** The X.509 version a version field denotes: the field is zero based. *)
Definition x509_version_denoted (field : Z) : Z := (field + 1)%Z.

(** Objects in library memory. *)
Inductive object :=
| OBufMem (data : string)               (* BUF_MEM: [length] is the length of [data] *)
| OBio (mem : ptr)                      (* memory BIO and the BUF_MEM it owns *)
| ORsa (k : Key)
| OPkey (rsa : ptr) (k : option Key)    (* EVP_PKEY and the RSA it owns, if any *)
| OX509 (c : X509)
| OX509_REQ (r : X509_REQ)
| OInteger (v : Z).                     (* ASN1_INTEGER *)

(** Values on the Lua stack. *)
Inductive lua_value :=
| LNil
| LBoolean (b : bool)
| LLightUserdata (p : N)
| LNumber (n : Number)
| LString (s : string)
| LTable (id : N)
| LFunction (id : N)
| LUserdata (id : N)
| LThread (id : N).

(** One entry of the call trace: the call and, when it is handed the
    certificate under construction, that certificate as it then is. *)
Record event := Ev { ev_call : call; ev_cert : option X509 }.

(** ** The libraries *)

Record Env := mkEnv {
  lua_number2str : Number → string;
  pem_rsa_private_key : string → string → option Key;  (* blob, passphrase *)
  pem_x509 : string → option X509;
  pem_x509_req : string → option X509_REQ;
  req_verify : X509_REQ → Key → Z;                     (* 1, 0 or negative *)
  sign_cert : X509 → Key → EVP_MD → option string;
  pem_of_x509 : X509 → option string;
  clock : nat → Z;         (* seconds since the epoch, read during the n-th call *)
  lib_fails : nat → bool;  (* the n-th call fails for lack of resources *)
  beyond : nat → ascii     (* memory after the content of the output buffer *)
}.

(** ** Machine state *)

Record Memory := mkMemory {
  heap : gmap ptr object;
  brk : ptr;                      (* next fresh address *)
  freed : list ptr;
  violations : list violation
}.

Record State := mkState {
  frame : Frame;
  rc : Z;
  lua : list lua_value;           (* the Lua stack, index 1 first *)
  mem : Memory;
  stderr : list diag;
  trace : list event
}.

Definition with_frame (f : Frame → Frame) (s : State) : State :=
  mkState (f (frame s)) (rc s) (lua s) (mem s) (stderr s) (trace s).
Definition with_rc (v : Z) (s : State) : State :=
  mkState (frame s) v (lua s) (mem s) (stderr s) (trace s).
Definition with_lua (f : list lua_value → list lua_value) (s : State) : State :=
  mkState (frame s) (rc s) (f (lua s)) (mem s) (stderr s) (trace s).
Definition with_mem (f : Memory → Memory) (s : State) : State :=
  mkState (frame s) (rc s) (lua s) (f (mem s)) (stderr s) (trace s).
Definition with_stderr (f : list diag → list diag) (s : State) : State :=
  mkState (frame s) (rc s) (lua s) (mem s) (f (stderr s)) (trace s).
Definition with_trace (f : list event → list event) (s : State) : State :=
  mkState (frame s) (rc s) (lua s) (mem s) (stderr s) (f (trace s)).

Definition empty_memory : Memory := mkMemory ∅ 1%N [] [].

(** The state on entry: the arguments on the Lua stack, nothing acquired
    yet, and whatever the stack frame holds. *)
Definition entry (garbage : Frame) (args : list lua_value) : State :=
  mkState garbage 0 args empty_memory [] [].

(** ** The monad: state, [goto __error], Lua errors and memory faults *)

Definition M (A : Type) : Type := State → res A * State.

#[local] Instance M_ret : MRet M := λ A a s, (Val a, s).
#[local] Instance M_bind : MBind M := λ A B f m s,
  match m s with
  | (Val a, s') => f a s'
  | (Goto_error, s') => (Goto_error, s')
  | (Lua_error, s') => (Lua_error, s')
  | (Segfault, s') => (Segfault, s')
  end.

Definition get_state : M State := λ s, (Val s, s).
Definition modify (f : State → State) : M unit := λ s, (Val tt, f s).
Definition goto__error {A} : M A := λ s, (Goto_error, s).
Definition lua_error {A} : M A := λ s, (Lua_error, s).
Definition segfault {A} : M A := λ s, (Segfault, s).

Definition when (b : bool) (m : M unit) : M unit := if b then m else mret tt.

(** [body; __error: handler]: the handler runs when the body completes and
    when it jumps to the label. *)
Definition at__error {A} (body : M unit) (handler : M A) : M A := λ s,
  match body s with
  | (Val _, s') | (Goto_error, s') => handler s'
  | (Lua_error, s') => (Lua_error, s')
  | (Segfault, s') => (Segfault, s')
  end.

(** ** Memory primitives *)

Definition alloc (o : object) : M ptr := λ s,
  let p := brk (mem s) in
  (Val p, with_mem (λ m, mkMemory (<[p:=o]> (heap m)) (N.succ p) (freed m) (violations m)) s).

Definition load (p : ptr) : M object := λ s,
  match heap (mem s) !! p with
  | Some o => (Val o, s)
  | None => (Segfault, s)
  end.

Definition store (p : ptr) (o : object) : M unit :=
  modify (with_mem (λ m, mkMemory (<[p:=o]> (heap m)) (brk m) (freed m) (violations m))).

Definition bad_free (p : ptr) (m : Memory) : Memory :=
  mkMemory (heap m) (brk m) (freed m)
    (violations m ++ [if bool_decide (p ∈ freed m) then DoubleFree p else InvalidFree p]).

(** Return the block at [p] to the allocator. *)
Definition release (p : ptr) (m : Memory) : Memory :=
  match heap m !! p with
  | Some _ => mkMemory (delete p (heap m)) (brk m) (freed m ++ [p]) (violations m)
  | None => bad_free p m
  end.

Definition load_bufmem (p : ptr) : M string :=
  o ← load p; match o with OBufMem d => mret d | _ => segfault end.
Definition load_bio (p : ptr) : M ptr :=
  o ← load p; match o with OBio m => mret m | _ => segfault end.
Definition load_rsa (p : ptr) : M Key :=
  o ← load p; match o with ORsa k => mret k | _ => segfault end.
Definition load_pkey (p : ptr) : M (ptr * option Key) :=
  o ← load p; match o with OPkey r k => mret (r, k) | _ => segfault end.
Definition load_x509 (p : ptr) : M X509 :=
  o ← load p; match o with OX509 c => mret c | _ => segfault end.
Definition load_req (p : ptr) : M X509_REQ :=
  o ← load p; match o with OX509_REQ r => mret r | _ => segfault end.
Definition load_integer (p : ptr) : M Z :=
  o ← load p; match o with OInteger v => mret v | _ => segfault end.

(** Enter a library call: it is appended to the trace, with the
    certificate at [cert] if there is one, and its sequence number is
    returned. *)
Definition enter (c : call) (cert : ptr) : M nat := λ s,
  let snapshot := match heap (mem s) !! cert with Some (OX509 x) => Some x | _ => None end in
  (Val (length (trace s)), with_trace (λ t, t ++ [Ev c snapshot]) s).

Variable env : Env.

(** [len] bytes read from the address of a buffer holding [data]: its
    content, then whatever memory follows it. *)
Fixpoint read_bytes (data : string) (past len : nat) : string :=
  match len with
  | O => ""
  | S n =>
      match data with
      | String a d => String a (read_bytes d past n)
      | EmptyString => String (beyond env past) (read_bytes "" (S past) n)
      end
  end.

(** ** The Lua C API *)

Definition lua_gettop : M nat := s ← get_state; mret (length (lua s)).

(** 1 for a string or a number, 0 for anything else or an empty slot. *)
Definition lua_isstring (idx : nat) : M Z :=
  s ← get_state;
  mret (match lua s !! (idx - 1)%nat with
        | Some (LString _) | Some (LNumber _) => 1
        | _ => 0
        end)%Z.

(** The string at [idx] and its length; a number is converted in place;
    anything else raises a Lua error. *)
Definition luaL_checklstring (idx : nat) : M (string * nat) :=
  s ← get_state;
  match lua s !! (idx - 1)%nat with
  | Some (LString x) => mret (x, String.length x)
  | Some (LNumber n) =>
      let x := lua_number2str env n in
      modify (with_lua (<[(idx - 1)%nat := LString x]>));;
      mret (x, String.length x)
  | _ => lua_error
  end.

Definition lua_pushlstring (data : string) (len : nat) : M unit :=
  enter lua_pushlstring_ NULL;;
  modify (with_lua (λ l, l ++ [LString (read_bytes data 0 len)])).

(** ** The error stream *)

Definition fprintf_stderr (msg : string) : M unit :=
  modify (with_stderr (λ l, l ++ [Printed msg])).

Definition err_descr_to_stderr (err_patern : string) : M unit :=
  modify (with_stderr (λ l, l ++ [Described err_patern])).

(** ** OpenSSL *)

(** A read-only memory BIO over the first [len] bytes at [buf]. *)
Definition BIO_new_mem_buf (buf : string) (len : nat) : M ptr :=
  m ← alloc (OBufMem (read_bytes buf 0 len)); alloc (OBio m).

Definition BIO_new (method : BIO_METHOD) : M ptr :=
  m ← alloc (OBufMem ""); alloc (OBio m).

Definition PEM_read_bio_RSAPrivateKey (bio : ptr) (password : string) : M ptr :=
  enter PEM_read_bio_RSAPrivateKey_ NULL;;
  m ← load_bio bio; d ← load_bufmem m;
  match pem_rsa_private_key env d password with
  | Some k => alloc (ORsa k)
  | None => mret NULL
  end.

Definition EVP_PKEY_new : M ptr := alloc (OPkey NULL None).

(** The key takes ownership of the RSA structure. *)
Definition EVP_PKEY_assign_RSA (pkey rsa : ptr) : M unit :=
  load_pkey pkey;; k ← load_rsa rsa; store pkey (OPkey rsa (Some k)).

Definition PEM_read_bio_X509 (bio : ptr) : M ptr :=
  enter PEM_read_bio_X509_ NULL;;
  m ← load_bio bio; d ← load_bufmem m;
  match pem_x509 env d with
  | Some c => alloc (OX509 c)
  | None => mret NULL
  end.

Definition PEM_read_bio_X509_REQ (bio : ptr) : M ptr :=
  enter PEM_read_bio_X509_REQ_ NULL;;
  m ← load_bio bio; d ← load_bufmem m;
  match pem_x509_req env d with
  | Some r => alloc (OX509_REQ r)
  | None => mret NULL
  end.

Definition X509_new : M ptr :=
  n ← enter X509_new_ NULL;
  if lib_fails env n then mret NULL else alloc (OX509 X509_empty).

(** A field assignment on the certificate at [x]: 1 when done, 0 when the
    library is out of resources. *)
Definition X509_assign (c : call) (x : ptr) (f : X509 → X509) : M Z :=
  n ← enter c x;
  cert ← load_x509 x;
  if lib_fails env n then mret 0%Z else store x (OX509 (f cert));; mret 1%Z.

Definition X509_set_version (x : ptr) (version : Z) : M Z :=
  X509_assign X509_set_version_ x (with_version version).

(** The certificate records the key held by [pkey]; a key without key
    material is refused. *)
Definition X509_set_pubkey (x pkey : ptr) : M Z :=
  '(_, k) ← load_pkey pkey;
  match k with
  | Some k => X509_assign X509_set_pubkey_ x (with_pubkey k)
  | None => enter X509_set_pubkey_ x;; mret 0%Z
  end.

Definition ASN1_INTEGER_new : M ptr := alloc (OInteger 0).

Definition ASN1_INTEGER_set (a : ptr) (v : Z) : M unit :=
  load_integer a;; store a (OInteger v).

(** The serial number is copied: the certificate does not take over
    [serial]. *)
Definition X509_set_serialNumber (x serial : ptr) : M Z :=
  v ← load_integer serial;
  X509_assign X509_set_serialNumber_ x (with_serialNumber v).

(** A pointer into the request; [None] is [NULL]. *)
Definition X509_REQ_get_subject_name (req : ptr) : M (option Name) :=
  enter X509_REQ_get_subject_name_ NULL;;
  r ← load_req req; mret (r_subject r).

(** A pointer into the certificate; the argument is dereferenced. *)
Definition X509_get_subject_name (a : ptr) : M (option Name) :=
  enter X509_get_subject_name_ NULL;;
  c ← load_x509 a; mret (x_subject c).

Definition X509_set_subject_name (x : ptr) (name : option Name) : M Z :=
  match name with
  | Some n => X509_assign X509_set_subject_name_ x (with_subject n)
  | None => enter X509_set_subject_name_ x;; mret 0%Z
  end.

Definition X509_set_issuer_name (x : ptr) (name : option Name) : M Z :=
  match name with
  | Some n => X509_assign X509_set_issuer_name_ x (with_issuer n)
  | None => enter X509_set_issuer_name_ x;; mret 0%Z
  end.

(** A new reference to the request's key, to be released by the caller;
    [NULL] when the key cannot be unpacked. *)
Definition X509_REQ_get_pubkey (req : ptr) : M ptr :=
  enter X509_REQ_get_pubkey_ NULL;;
  r ← load_req req;
  match r_pubkey r with
  | Some k => alloc (OPkey NULL (Some k))
  | None => mret NULL
  end.

Definition X509_REQ_verify (req pkey : ptr) : M Z :=
  enter X509_REQ_verify_ NULL;;
  r ← load_req req;
  '(_, k) ← load_pkey pkey;
  match k with
  | Some k => mret (req_verify env r k)
  | None => mret (-1)%Z
  end.

(** Set the time at [s] to the current time plus [adj] seconds; [s] is
    returned, or [NULL]. *)
Definition X509_gmtime_adj (s : ASN1_TIME) (adj : Z) : M (option ASN1_TIME) :=
  let x := match s with notBefore_of x | notAfter_of x => x end in
  n ← enter X509_gmtime_adj_ x;
  cert ← load_x509 x;
  if lib_fails env n then mret None
  else
    let t := (clock env n + adj)%Z in
    store x (OX509 (match s with
                    | notBefore_of _ => with_notBefore t cert
                    | notAfter_of _ => with_notAfter t cert
                    end));;
    mret (Some s).

(** Fills the caller's extension context, which is not used afterwards. *)
Definition X509V3_set_ctx (issuer subject : ptr) : M unit := mret tt.

(** Sign the certificate at [x] with the key at [pkey]: the size of the
    signature, which is positive (only that is used), or 0. *)
Definition X509_sign (x pkey : ptr) (md : EVP_MD) : M Z :=
  enter X509_sign_ x;;
  cert ← load_x509 x;
  '(_, k) ← load_pkey pkey;
  match k with
  | Some k =>
      match sign_cert env cert k md with
      | Some sg => store x (OX509 (with_signature md sg cert));; mret 1%Z
      | None => mret 0%Z
      end
  | None => mret 0%Z
  end.

Definition PEM_write_bio_X509 (bio x : ptr) : M Z :=
  enter PEM_write_bio_X509_ x;;
  m ← load_bio bio; d ← load_bufmem m;
  cert ← load_x509 x;
  match pem_of_x509 env cert with
  | Some pem => store m (OBufMem (d +:+ pem));; mret 1%Z
  | None => mret 0%Z
  end.

(** The BUF_MEM inside the BIO; the BIO still owns it. *)
Definition BIO_get_mem_ptr (bio : ptr) : M ptr := load_bio bio.

(** *** Releasing *)

Definition BUF_MEM_free (p : ptr) : M unit := λ s,
  (Val tt,
   match heap (mem s) !! p with
   | Some (OBufMem _) => with_mem (release p) s
   | _ => with_mem (bad_free p) s
   end).

(** A memory BIO closes its buffer when it is freed. *)
Definition BIO_free_all (p : ptr) : M unit := λ s,
  (Val tt,
   match heap (mem s) !! p with
   | Some (OBio m) => with_mem (λ h, release p (release m h)) s
   | _ => with_mem (bad_free p) s
   end).

Definition EVP_PKEY_free (p : ptr) : M unit := λ s,
  (Val tt,
   match heap (mem s) !! p with
   | Some (OPkey r _) =>
       with_mem (λ h, release p (if (r =? NULL)%N then h else release r h)) s
   | _ => with_mem (bad_free p) s
   end).

Definition X509_free (p : ptr) : M unit := λ s,
  (Val tt,
   match heap (mem s) !! p with
   | Some (OX509 _) => with_mem (release p) s
   | _ => with_mem (bad_free p) s
   end).

Definition X509_REQ_free (p : ptr) : M unit := λ s,
  (Val tt,
   match heap (mem s) !! p with
   | Some (OX509_REQ _) => with_mem (release p) s
   | _ => with_mem (bad_free p) s
   end).

(** ** csr_crt *)

(** [x = e;] for a variable that the cleanup label reads. *)
Definition assign (set : ptr → Frame → Frame) (e : M ptr) : M ptr :=
  v ← e; modify (with_frame (set v));; mret v.

(** The current value of such a variable. *)
Definition var (x : Frame → ptr) : M ptr := s ← get_state; mret (x (frame s)).

(** Lines 84 to 121: the three arguments, each with its length. *)
Definition csr_crt_args : M (string * nat * (string * nat) * (string * nat)) :=
  argc ← lua_gettop;
  when (argc <? 3)%nat
    (fprintf_stderr "you must pass one argument: (priv_key, csr)!";; goto__error);;
  b ← lua_isstring 1;
  when (negb (b =? 1)%Z)
    (fprintf_stderr "first argument must be string: private key!";; goto__error);;
  '(pkey, pkey_len) ← luaL_checklstring 1;
  when (pkey_len =? 0)%nat
    (fprintf_stderr "pkey length should greater then zero!";; goto__error);;
  b ← lua_isstring 2;
  when (negb (b =? 1)%Z)
    (fprintf_stderr "second argument must be string: crt!";; goto__error);;
  '(crt, crt_len) ← luaL_checklstring 2;
  when (crt_len =? 0)%nat
    (fprintf_stderr "crt length should greater then zero!";; goto__error);;
  b ← lua_isstring 3;
  when (negb (b =? 1)%Z)
    (fprintf_stderr "third argument must be string: csr!";; goto__error);;
  '(csr, csr_len) ← luaL_checklstring 3;
  when (csr_len =? 0)%nat
    (fprintf_stderr "csr length should greater then zero!";; goto__error);;
  mret (pkey, pkey_len, (crt, crt_len), (csr, csr_len)).

(** Lines 124 to 284: decoding, building, verifying, signing, output. *)
Definition csr_crt_sign (pkey : string) (pkey_len : nat) (crt : string) (crt_len : nat)
    (csr : string) (csr_len : nat) : M unit :=
  (* load pkey *)
  let password := "replace_me" in
  pkeybio ← assign set_pkeybio (BIO_new_mem_buf pkey pkey_len);
  rsa ← PEM_read_bio_RSAPrivateKey pkeybio password;
  when (rsa =? NULL)%N
    (err_descr_to_stderr "Failed to create key bio";; goto__error);;
  pKey ← assign set_pKey EVP_PKEY_new;
  EVP_PKEY_assign_RSA pKey rsa;;
  (* load pca *)
  cacertbio ← assign set_cacertbio (BIO_new_mem_buf crt crt_len);
  cacert ← assign set_cacert (PEM_read_bio_X509 cacertbio);
  (* load csr *)
  reqbio ← assign set_reqbio (BIO_new_mem_buf csr csr_len);
  assign set_certreq (mret NULL);;
  certreq ← assign set_certreq (PEM_read_bio_X509_REQ reqbio);
  when (certreq =? NULL)%N
    (err_descr_to_stderr "Error can't read X509 request data into memory";; goto__error);;
  (* create certificate *)
  assign set_newcert (mret NULL);;
  newcert ← assign set_newcert X509_new;
  when (newcert =? NULL)%N
    (err_descr_to_stderr "Error creating new X509 object";; goto__error);;
  r ← X509_set_version newcert 2;
  when (negb (r =? 1)%Z)
    (err_descr_to_stderr "Error setting certificate version";; goto__error);;
  r ← X509_set_pubkey newcert pKey;
  when (negb (r =? 1)%Z)
    (err_descr_to_stderr "X509_set_pubkey";; goto__error);;
  aserial ← ASN1_INTEGER_new;
  ASN1_INTEGER_set aserial 0;;
  r ← X509_set_serialNumber newcert aserial;
  when (r =? 0)%Z
    (err_descr_to_stderr "Error setting serial number of the certificate";; goto__error);;
  name ← X509_REQ_get_subject_name certreq;
  when (is_null name)
    (err_descr_to_stderr "Error getting subject from cert request";; goto__error);;
  r ← X509_set_subject_name newcert name;
  when (negb (r =? 1)%Z)
    (err_descr_to_stderr "Error setting subject name of certificate";; goto__error);;
  name ← X509_get_subject_name cacert;
  when (is_null name)
    (err_descr_to_stderr "Error getting subject from CA certificate";; goto__error);;
  r ← X509_set_issuer_name newcert name;
  when (negb (r =? 1)%Z)
    (err_descr_to_stderr "Error setting issuer name of certificate";; goto__error);;
  req_pubkey ← assign set_req_pubkey (X509_REQ_get_pubkey certreq);
  when (req_pubkey =? NULL)%N
    (err_descr_to_stderr "Error unpacking public key from request";; goto__error);;
  r ← X509_REQ_verify certreq req_pubkey;
  when (negb (r =? 1)%Z)
    (err_descr_to_stderr "Error verifying signature on request";; goto__error);;
  r ← X509_set_pubkey newcert req_pubkey;
  when (negb (r =? 1)%Z)
    (err_descr_to_stderr "Error setting public key of certificate";; goto__error);;
  t ← X509_gmtime_adj (X509_get_notBefore newcert) 0;
  when (is_null t)
    (err_descr_to_stderr "Error setting start time";; goto__error);;
  let valid_secs := 31536000%Z in
  t ← X509_gmtime_adj (X509_get_notAfter newcert) valid_secs;
  when (is_null t)
    (err_descr_to_stderr "Error setting expiration time";; goto__error);;
  X509V3_set_ctx cacert newcert;;
  let digest := EVP_sha256 in
  r ← X509_sign newcert pKey digest;
  when (r =? 0)%Z
    (err_descr_to_stderr "Error signing the new certificate";; goto__error);;
  outbio ← assign set_outbio (BIO_new BIO_s_mem);
  r ← PEM_write_bio_X509 outbio newcert;
  when (r =? 0)%Z
    (err_descr_to_stderr "Error printing the signed certificate";; goto__error);;
  bptr ← BIO_get_mem_ptr outbio;
  data ← load_bufmem bptr;
  lua_pushlstring data (String.length data + 1);;
  BUF_MEM_free bptr.

(** Lines 82 to 287: from the declaration of [rc] to [rc = 1]. *)
Definition csr_crt_body : M unit :=
  modify (with_rc 0);;
  '(pkey, pkey_len, (crt, crt_len), (csr, csr_len)) ← csr_crt_args;
  csr_crt_sign pkey pkey_len crt crt_len csr csr_len;;
  modify (with_rc 1).

(** Lines 289 to 326: the label [__error] and the return. *)
Definition csr_crt__error : M Z :=
  p ← var pkeybio; when (negb (p =? NULL)%N) (BIO_free_all p);;
  p ← var pKey; when (negb (p =? NULL)%N) (EVP_PKEY_free p);;
  p ← var cacertbio; when (negb (p =? NULL)%N) (BIO_free_all p);;
  p ← var cacert; when (negb (p =? NULL)%N) (X509_free p);;
  p ← var req_pubkey; when (negb (p =? NULL)%N) (EVP_PKEY_free p);;
  p ← var reqbio; when (negb (p =? NULL)%N) (BIO_free_all p);;
  p ← var certreq; when (negb (p =? NULL)%N) (X509_REQ_free p);;
  p ← var newcert; when (negb (p =? NULL)%N) (X509_free p);;
  p ← var outbio; when (negb (p =? NULL)%N) (BIO_free_all p);;
  s ← get_state; mret (rc s).

Definition csr_crt : M Z := at__error csr_crt_body csr_crt__error.

End Model.

(** ** What a caller and an observer see *)

Section Observations.

Context {Name Key Number : Type}.

Definition Outcome : Type := res Z * @State Name Key Number.

(** The number of results [csr_crt] announces, when it returns. *)
Definition returned (out : Outcome) : option Z :=
  match out.1 with Val n => Some n | _ => None end.

(** The values handed to the Lua caller: the top [n] stack slots. *)
Definition results (out : Outcome) : option (list (@lua_value Number)) :=
  match out.1 with
  | Val n => Some (drop (length (lua out.2) - Z.to_nat n) (lua out.2))
  | _ => None
  end.

(** The certificates handed to [PEM_write_bio_X509], in order. *)
Definition serialised (t : list (@event Name Key)) : list (@X509 Name Key) :=
  omap (λ e, match ev_call e with PEM_write_bio_X509_ => ev_cert e | _ => None end) t.

(** The certificate whose encoding is the output. *)
Definition output_cert (out : Outcome) : option (@X509 Name Key) :=
  last (serialised (trace out.2)).

Definition calls (out : Outcome) : list call := ev_call <$> trace out.2.

End Observations.

(** The calls of the pipeline in the order of the source text: the
    library calls whose result [csr_crt] tests, the decoder of the CA
    certificate and the push of the output. *)
Definition csr_crt_calls : list call :=
  [ PEM_read_bio_RSAPrivateKey_; PEM_read_bio_X509_; PEM_read_bio_X509_REQ_;
    X509_new_; X509_set_version_; X509_set_pubkey_; X509_set_serialNumber_;
    X509_REQ_get_subject_name_; X509_set_subject_name_;
    X509_get_subject_name_; X509_set_issuer_name_;
    X509_REQ_get_pubkey_; X509_REQ_verify_;
    X509_set_pubkey_; X509_gmtime_adj_; X509_gmtime_adj_;
    X509_sign_; PEM_write_bio_X509_; lua_pushlstring_ ].

(** ** The vocabulary of the specification *)

(** The error taxonomy of the specification.  The code itself only prints
    a line and returns 0; [spec_error_kind] reads the taxonomy off the
    printed line: argument checks and PEM parsing are decode errors,
    unpacking the request's key and checking its signature belong to the
    verifier, signing and printing to the signer, the rest to the
    builder. *)
Inductive error_kind :=
| DecodeError | SignatureVerificationError | BuildError | SigningError | EncodingError.

Definition spec_error_kind (d : diag) : error_kind :=
  match d with
  | Printed _ => DecodeError
  | Described p =>
      if (p =? "Failed to create key bio")%string
         || (p =? "Error can't read X509 request data into memory")%string
      then DecodeError
      else if (p =? "Error unpacking public key from request")%string
              || (p =? "Error verifying signature on request")%string
      then SignatureVerificationError
      else if (p =? "Error signing the new certificate")%string then SigningError
      else if (p =? "Error printing the signed certificate")%string then EncodingError
      else BuildError
  end.

(** The stages of the specification's state machine and the calls that
    make them up. *)
Inductive stage := Decode | Verify | Build | Sign.

Definition stage_of (c : call) : stage :=
  match c with
  | PEM_read_bio_RSAPrivateKey_ | PEM_read_bio_X509_ | PEM_read_bio_X509_REQ_ => Decode
  | X509_REQ_get_pubkey_ | X509_REQ_verify_ => Verify
  | X509_new_ | X509_set_version_ | X509_set_pubkey_ | X509_set_serialNumber_
  | X509_REQ_get_subject_name_ | X509_set_subject_name_
  | X509_get_subject_name_ | X509_set_issuer_name_ | X509_gmtime_adj_ => Build
  | X509_sign_ | PEM_write_bio_X509_ | lua_pushlstring_ => Sign
  end.

(** Decoded, then Verified, then Built, then Signed. *)
Definition stage_rank (s : stage) : nat :=
  match s with Decode => 0 | Verify => 1 | Build => 2 | Sign => 3 end.

(** No call of an earlier stage follows a call of a later one. *)
Fixpoint stages_in_order (t : list call) : bool :=
  match t with
  | [] => true
  | c :: t' =>
      forallb (λ d, stage_rank (stage_of c) <=? stage_rank (stage_of d))%nat t'
      && stages_in_order t'
  end.

Section Failure.

Context {Name Key Number : Type}.

(** The invocation fails with an error of kind [k]: it returns no value
    and the one line it printed is of that kind. *)
Definition failed_with (k : error_kind) (out : @Outcome Name Key Number) : Prop :=
  out.1 = Val 0%Z ∧ ∃ d, stderr out.2 = [d] ∧ spec_error_kind d = k.

End Failure.

(** The line printed for the first empty input, in the order private key,
    CA certificate, request. *)
Definition empty_input_line (pkey crt csr : string) : string :=
  if (String.length pkey =? 0)%nat then "pkey length should greater then zero!"
  else if (String.length crt =? 0)%nat then "crt length should greater then zero!"
  else "csr length should greater then zero!".

(** ** A small library to run the code on *)

Module Toy.

Definition Name := string.
Definition Key := string.

Definition key_pem := "RSA PRIVATE KEY ca".
Definition crt_pem := "CERTIFICATE ca".
Definition csr_pem := "CERTIFICATE REQUEST alice signed:alice".
(** The same request with the last byte of its signature changed. *)
Definition tampered_csr_pem := "CERTIFICATE REQUEST alice signed:alicf".

Definition ca_cert : @X509 Name Key :=
  mkX509 (Some 2%Z) (Some 1%Z) (Some "CN=ca") (Some "CN=ca") (Some "ca-public")
         (Some 1600000000%Z) (Some 1900000000%Z) (Some (EVP_sha256, "ca-signature")).

Definition parse_key (blob passphrase : string) : option Key :=
  if (blob =? key_pem)%string then Some "ca-private" else None.

Definition parse_crt (blob : string) : option (@X509 Name Key) :=
  if (blob =? crt_pem)%string then Some ca_cert else None.

Definition parse_csr (blob : string) : option (@X509_REQ Name Key) :=
  if (blob =? csr_pem)%string
  then Some (mkX509_REQ (Some "CN=alice") (Some "alice-public") "alice")
  else if (blob =? tampered_csr_pem)%string
  then Some (mkX509_REQ (Some "CN=alice") (Some "alice-public") "alicf")
  else None.

Definition verify (r : @X509_REQ Name Key) (k : Key) : Z :=
  if (r_signature r =? "alice")%string && (k =? "alice-public")%string then 1 else 0.

(** The library with a given clock: nothing fails for lack of resources,
    every certificate can be signed and printed. *)
Definition lib (clk : nat → Z) : @Env Name Key Z :=
  mkEnv (λ _, "0") parse_key parse_crt parse_csr verify
        (λ _ k _, Some ("signed-with:" +:+ k))
        (λ _, Some "CERTIFICATE alice")
        clk (λ _, false) (λ _, "000"%char).

(** A clock that stands still and one that advances by a second with
    every library call. *)
Definition still : nat → Z := λ _, 1700000000%Z.
Definition ticking : nat → Z := λ n, (1700000000 + Z.of_nat n)%Z.

(** A stack frame that happens to hold zeros. *)
Definition zeros : Frame :=
  mkFrame NULL NULL NULL NULL NULL NULL NULL NULL NULL.

Definition run (clk : nat → Z) (pkey crt csr : string) : @Outcome Name Key Z :=
  csr_crt (lib clk) (entry zeros [LString pkey; LString crt; LString csr]).

End Toy.

(** ** Predicates on runs *)

#[global] Instance call_eq_dec : EqDecision call.
Proof. solve_decision. Defined.

(** A property of the outcome of the signing block, kept folded while the
    block is run. *)
Definition holds {A} (P : A → Prop) (a : A) : Prop := P a.
#[global] Arguments holds : simpl never.

Section Predicates.

Context {Name Key Number : Type}.
Variable env : @Env Name Key Number.

Implicit Types s : @State Name Key Number.
Implicit Types L : list (@lua_value Number).
Implicit Types out : @Outcome Name Key Number.

(** A statement that always completes and changes nothing but memory. *)
Definition mem_only {A} (m : M A) : Prop :=
  ∀ s, ∃ a f, m s = (Val a, with_mem f s).

(** A statement that, when it completes, yields the value of [rc]. *)
Definition yields_rc (m : M Z) : Prop :=
  ∀ s a s', m s = (Val a, s') → a = rc s'.

(** The certificate as it is handed to [X509_sign]. *)
Definition to_be_signed (sn isn : Name) (rk : Key) : @X509 Name Key :=
  mkX509 (Some 2%Z) (Some 0%Z) (Some sn) (Some isn) (Some rk)
         (Some (clock env 14 + 0)%Z) (Some (clock env 15 + 31536000)%Z) None.

(** What holds when the signing block completes. *)
Definition sign_ok (k c r : string) L s : Prop :=
  ∃ key ca req sn isn rk sg pem,
    pem_rsa_private_key env k "replace_me" = Some key ∧
    pem_x509 env c = Some ca ∧
    pem_x509_req env r = Some req ∧
    r_subject req = Some sn ∧ x_subject ca = Some isn ∧ r_pubkey req = Some rk ∧
    req_verify env req rk = 1%Z ∧
    sign_cert env (to_be_signed sn isn rk) key EVP_sha256 = Some sg ∧
    pem_of_x509 env (with_signature EVP_sha256 sg (to_be_signed sn isn rk)) = Some pem ∧
    lua s = L ++ [LString (read_bytes env pem 0 (String.length pem + 1))] ∧
    stderr s = [] ∧
    ev_call <$> trace s = csr_crt_calls ∧
    serialised (trace s) = [with_signature EVP_sha256 sg (to_be_signed sn isn rk)].

(** What holds however the signing block ends. *)
Definition sign_facts (k c r : string) L (out : res unit * @State Name Key Number) : Prop :=
  out.1 ≠ Lua_error ∧
  rc out.2 = 0%Z ∧
  (ev_call <$> trace out.2) `prefix_of` csr_crt_calls ∧
  (out.1 = Val tt → sign_ok k c r L out.2) ∧
  (out.1 = Goto_error → lua out.2 = L ∧ ∃ d, stderr out.2 = [d]) ∧
  (out.1 = Segfault → pem_x509 env c = None ∧ lua out.2 = L ∧ stderr out.2 = []).

(** The states before and after the cleanup show the same stack, error
    stream and trace. *)
Definition same_view s s' : Prop :=
  lua s' = lua s ∧ stderr s' = stderr s ∧ trace s' = trace s.

(** The outcome of [csr_crt] read off the outcome of the signing block. *)
Definition finishes (b : res unit * @State Name Key Number) out : Prop :=
  same_view b.2 out.2 ∧
  out.1 = match b.1 with
          | Val _ => Val 1%Z
          | Goto_error => Val 0%Z
          | Lua_error => Lua_error
          | Segfault => Segfault
          end.

End Predicates.

#[global] Arguments sign_facts : simpl never.

(** ** More predicates on runs *)

(** The line [csr_crt] prints when the call at the same position of
    [csr_crt_calls] fails.  The result of decoding the CA certificate is
    not tested; pushing the output cannot be seen to fail. *)
Definition csr_crt_failure_lines : list (option string) :=
  [ Some "Failed to create key bio";
    None;
    Some "Error can't read X509 request data into memory";
    Some "Error creating new X509 object";
    Some "Error setting certificate version";
    Some "X509_set_pubkey";
    Some "Error setting serial number of the certificate";
    Some "Error getting subject from cert request";
    Some "Error setting subject name of certificate";
    Some "Error getting subject from CA certificate";
    Some "Error setting issuer name of certificate";
    Some "Error unpacking public key from request";
    Some "Error verifying signature on request";
    Some "Error setting public key of certificate";
    Some "Error setting start time";
    Some "Error setting expiration time";
    Some "Error signing the new certificate";
    Some "Error printing the signed certificate";
    None ].

(** The line printed when the argument at each position is neither a
    string nor a number. *)
Definition csr_crt_type_lines : list string :=
  [ "first argument must be string: private key!";
    "second argument must be string: crt!";
    "third argument must be string: csr!" ].

(** The automatic variables in the order in which the cleanup label
    reads them. *)
Definition locals (f : Frame) : list ptr :=
  [ pkeybio f; pKey f; cacertbio f; cacert f; req_pubkey f;
    reqbio f; certreq f; newcert f; outbio f ].

Section MorePredicates.

Context {Name Key Number : Type}.
Variable env : @Env Name Key Number.

Implicit Types s : @State Name Key Number.
Implicit Types L : list (@lua_value Number).

(** [x] is the string [luaL_checklstring] reads from the value [v]. *)
Definition read_as (v : @lua_value Number) (x : string) : Prop :=
  v = LString x ∨ ∃ n, v = LNumber n ∧ x = lua_number2str env n.

(** [v'] is what [luaL_checklstring] may have left in the slot of [v]. *)
Definition left_as (v v' : @lua_value Number) : Prop :=
  v' = v ∨ ∃ n, v = LNumber n ∧ v' = LString (lua_number2str env n).

(** What holds when the argument checks end: nothing but the stack and
    the error stream has changed; either one line was printed, or the
    first three slots hold three non-empty strings. *)
Definition args_facts (g : Frame) L
    (out : res (string * nat * (string * nat) * (string * nat)) * @State Name Key Number) : Prop :=
  frame out.2 = g ∧ rc out.2 = 0%Z ∧ mem out.2 = empty_memory ∧ trace out.2 = [] ∧
  drop 3 (lua out.2) = drop 3 L ∧
  Forall2 left_as (take 3 L) (take 3 (lua out.2)) ∧
  match out.1 with
  | Goto_error => ∃ msg, stderr out.2 = [Printed msg]
  | Val (k, kl, (c, cl), (r, rl)) =>
      stderr out.2 = [] ∧
      kl = String.length k ∧ cl = String.length c ∧ rl = String.length r ∧
      k ≠ "" ∧ c ≠ "" ∧ r ≠ "" ∧
      take 3 (lua out.2) = [LString k; LString c; LString r] ∧
      Forall2 read_as (take 3 L) [k; c; r]
  | _ => False
  end.

(** Where the signing block stops when it does not complete. *)
Definition sign_ends (k c r : string) (out : res unit * @State Name Key Number) : Prop :=
  trace out.2 ≠ [] ∧
  match out.1 with
  | Goto_error =>
      ∃ i msg, csr_crt_failure_lines !! i = Some (Some msg) ∧
               stderr out.2 = [Described msg] ∧
               ev_call <$> trace out.2 = take (S i) csr_crt_calls
  | Segfault =>
      pem_x509 env c = None ∧
      is_Some (pem_rsa_private_key env k "replace_me") ∧
      is_Some (pem_x509_req env r) ∧
      ev_call <$> trace out.2 = take 10 csr_crt_calls
  | _ => True
  end.

(** The memory after the cleanup that follows the signing block. *)
Definition memory_after (b : res unit * @State Name Key Number) : Memory :=
  mem (csr_crt__error (match b.1 with Val _ => with_rc 1 b.2 | _ => b.2 end)).2.

Definition success_memory (b : res unit * @State Name Key Number) : Prop :=
  b.1 = Val tt →
  heap (memory_after b) = {[ 12%N := OInteger 0 ]} ∧
  violations (memory_after b) = [DoubleFree 14%N].

Definition failure_memory (b : res unit * @State Name Key Number) : Prop :=
  b.1 = Goto_error →
  violations (memory_after b) = [] ∧
  if (length (trace b.2) <? 7)%nat
  then heap (memory_after b) = ∅
  else ∃ a, heap (memory_after b) = {[ a := OInteger 0 ]}.

End MorePredicates.

#[global] Arguments args_facts : simpl never.
#[global] Arguments sign_ends : simpl never.
#[global] Arguments success_memory : simpl never.
#[global] Arguments failure_memory : simpl never.

Section Guard.

Context {Name Key Number : Type}.
Variable env : @Env Name Key Number.

(** [X509_sign] is called only on behalf of a request that verifies
    against the key it carries. *)
Definition signs_verified (r : string) (out : res unit * @State Name Key Number) : Prop :=
  X509_sign_ ∈ (ev_call <$> trace out.2) →
  ∃ req rk, pem_x509_req env r = Some req ∧ r_pubkey req = Some rk ∧
            req_verify env req rk = 1%Z.

End Guard.

#[global] Arguments signs_verified : simpl never.

(** The calls that may fail for lack of resources: those that allocate
    in the library and whose result [csr_crt] tests. *)
Definition may_run_out (c : call) : bool :=
  match c with
  | X509_new_ | X509_set_version_ | X509_set_pubkey_ | X509_set_serialNumber_
  | X509_set_subject_name_ | X509_set_issuer_name_ | X509_gmtime_adj_ => true
  | _ => false
  end.

(** ** init_crypto *)

(** The registrations [init_crypto] makes in the library. *)
Inductive setup_call :=
| OpenSSL_add_all_algorithms_ | ERR_load_BIO_strings_ | ERR_load_crypto_strings_.

(** What outlives a call from Lua: the error stream and the
    registrations made so far. *)
Record Process := mkProcess {
  p_stderr : list diag;
  p_setup : list setup_call
}.

Definition register (c : setup_call) (p : Process) : Process :=
  mkProcess (p_stderr p) (p_setup p ++ [c]).

Section Init.

Context {Number : Type}.

(** Lines 67 to 79; [args] is the Lua stack on entry. *)
Definition init_crypto (args : list (@lua_value Number)) (p : Process) : Z * Process :=
  let argc := length args in
  if (0 <? argc)%nat then
    (0%Z, mkProcess (p_stderr p ++ [Printed "you must not pass arguments"]) (p_setup p))
  else
    let p := register OpenSSL_add_all_algorithms_ p in
    let p := register ERR_load_BIO_strings_ p in
    let p := register ERR_load_crypto_strings_ p in
    (0%Z, p).

(** A sequence of calls of [init_crypto], each with its arguments. *)
Definition init_crypto_calls (invocations : list (list (@lua_value Number))) (p : Process)
    : Process :=
  foldl (λ p args, (init_crypto args p).2) p invocations.

End Init.

(** ** Predicates on the cleanup label *)

(** What releasing the stale pointer [p] records: nothing for [NULL]. *)
Definition stale_free (p : ptr) : list violation :=
  if (p =? NULL)%N then [] else [InvalidFree p].

Section CleanupPredicates.

Context {Name Key Number : Type}.

(** A change of the memory that allocates nothing. *)
Definition only_releases (f : @Memory Name Key → @Memory Name Key) : Prop :=
  ∀ m, heap (f m) ⊆ heap m ∧ brk (f m) = brk m.

(** A statement that always completes and does nothing but release. *)
Definition cleans_up {A} (m : @M Name Key Number A) : Prop :=
  ∀ s, ∃ a f, m s = (Val a, with_mem f s) ∧ only_releases f.

(** A statement that, on an empty memory, records the violations [v] and
    does nothing else. *)
Definition records (v : list violation) (m : @M Name Key Number unit) : Prop :=
  ∀ s, heap (mem s) = ∅ → freed (mem s) = [] →
       m s = (Val tt,
              with_mem (λ m, mkMemory (heap m) (brk m) (freed m) (violations m ++ v)) s).

End CleanupPredicates.

(** ** The small library with faults *)

Module Faulty.

(** The key cannot sign. *)
Definition cannot_sign : @Env Toy.Name Toy.Key Z :=
  mkEnv (λ _, "0") Toy.parse_key Toy.parse_crt Toy.parse_csr Toy.verify
        (λ _ _ _, None)
        (λ _, Some "CERTIFICATE alice")
        Toy.still (λ _, false) (λ _, "000"%char).

(** Certificates cannot be printed. *)
Definition cannot_print : @Env Toy.Name Toy.Key Z :=
  mkEnv (λ _, "0") Toy.parse_key Toy.parse_crt Toy.parse_csr Toy.verify
        (λ _ k _, Some ("signed-with:" +:+ k))
        (λ _, None)
        Toy.still (λ _, false) (λ _, "000"%char).

(** The library runs out of resources in its [n]-th call. *)
Definition out_of_resources (n : nat) : @Env Toy.Name Toy.Key Z :=
  mkEnv (λ _, "0") Toy.parse_key Toy.parse_crt Toy.parse_csr Toy.verify
        (λ _ k _, Some ("signed-with:" +:+ k))
        (λ _, Some "CERTIFICATE alice")
        Toy.still (λ i, i =? n)%nat (λ _, "000"%char).

(** A stack frame that holds what earlier calls left there. *)
Definition stale : Frame :=
  mkFrame 7%N NULL 7%N 40%N NULL NULL 3%N NULL 99%N.

End Faulty.

(** * Properties *)

#[local] Existing Instance M_bind.
#[local] Existing Instance M_ret.

Create HintDb csr.
#[local] Hint Unfold
  lua_gettop lua_isstring luaL_checklstring lua_pushlstring
  fprintf_stderr err_descr_to_stderr
  BIO_new_mem_buf BIO_new PEM_read_bio_RSAPrivateKey EVP_PKEY_new
  EVP_PKEY_assign_RSA PEM_read_bio_X509 PEM_read_bio_X509_REQ
  X509_new X509_assign X509_set_version X509_set_pubkey ASN1_INTEGER_new
  ASN1_INTEGER_set X509_set_serialNumber X509_REQ_get_subject_name
  X509_get_subject_name X509_set_subject_name X509_set_issuer_name
  X509_REQ_get_pubkey X509_REQ_verify X509_gmtime_adj X509V3_set_ctx
  X509_sign PEM_write_bio_X509 BIO_get_mem_ptr BUF_MEM_free
  assign var when load_bufmem load_bio load_rsa load_pkey load_x509 load_req
  load_integer load store alloc enter modify get_state goto__error lua_error
  segfault mbind M_bind mret M_ret NULL : csr.

(** ** Symbolic execution

    The program is run one statement at a time on an explicit state.  The
    rest of the program is kept out of sight while a statement is
    evaluated; reads of the heap are resolved against the chain of writes;
    where the outcome depends on the library, both answers are followed
    unless a hypothesis settles it. *)

Ltac find_in h p :=
  lazymatch h with
  | <[?q := ?o]> ?h' =>
      let b := eval vm_compute in (N.eqb q p) in
      lazymatch b with true => constr:(Some o) | false => find_in h' p end
  | _ => lazymatch type of h with gmap _ ?V => constr:(@None V) end
  end.

Ltac heap_read :=
  match goal with
  | |- context [@lookup _ _ (gmap _ _) _ ?p ?h] =>
      let r := find_in h p in change (h !! p) with r
  end.

Ltac addr_norm :=
  match goal with
  | |- context [N.succ ?x] =>
      let v := eval vm_compute in (N.succ x) in
      lazymatch v with N.pos _ => change (N.succ x) with v end
  end.

Ltac run := repeat first [progress cbn | heap_read | addr_norm].

Ltac norm_state :=
  cbv beta iota delta
    [with_mem with_trace with_frame with_stderr with_lua with_rc
     set_pkeybio set_pKey set_cacertbio set_cacert set_req_pubkey set_reqbio
     set_certreq set_newcert set_outbio
     heap brk freed violations mem trace frame rc lua stderr empty_memory];
  cbn [pkeybio pKey cacertbio cacert req_pubkey reqbio certreq newcert outbio app].

(** A branch whose assumptions contradict each other. *)
Ltac absurd_branch :=
  exfalso;
  first
    [ congruence
    | match goal with
      | H : ∀ n, lib_fails _ n = false, E : lib_fails _ _ = true |- _ =>
          rewrite H in E; discriminate E
      | H : ∀ c, is_Some _, E : _ = None |- _ =>
          apply eq_None_not_Some in E; apply E; apply H
      end ].

(** Settle the question [t] from a hypothesis, or follow both answers. *)
Ltac answer t :=
  first
    [ match goal with H : t = _ |- _ => rewrite H end
    | destruct t eqn:?; try absurd_branch ].

Ltac ask :=
  match goal with
  | |- context [pem_rsa_private_key ?e ?a ?b] => answer (pem_rsa_private_key e a b)
  | |- context [pem_x509 ?e ?a] => answer (pem_x509 e a)
  | |- context [pem_x509_req ?e ?a] => answer (pem_x509_req e a)
  | |- context [lib_fails ?e ?n] => answer (lib_fails e n)
  | |- context [r_pubkey ?r] => answer (r_pubkey r)
  | |- context [sign_cert ?e ?c ?k ?m] => answer (sign_cert e c k m)
  | |- context [pem_of_x509 ?e ?c] => answer (pem_of_x509 e c)
  end.

(** Questions whose answer is used by later statements as well. *)
Ltac ask_early m :=
  match m with
  | context [r_subject ?r] => answer (r_subject r)
  | context [x_subject ?r] => answer (x_subject r)
  | context [(String.length ?x =? 0)%nat] =>
      lazymatch x with
      | String _ _ => fail
      | EmptyString => fail
      | _ => first [is_var x; destruct x | destruct x eqn:?]
      end
  | context [(req_verify ?e ?r ?k =? 1)%Z] =>
      destruct (Z.eqb_spec (req_verify e r k) 1); try absurd_branch
  end.

Ltac ask_head :=
  lazymatch goal with
  | |- context [@mbind _ _ _ _ ?f ?m ?s] => ask_early m
  end.

(** All the positions at which a list given in full can be looked up. *)
Ltac split_lookup i H :=
  first
    [ discriminate H
    | destruct i as [|i]; [cbn in H | cbn in H; split_lookup i H] ].

(** The value the next type check looks at, when it is not known yet. *)
Ltac split_value :=
  lazymatch goal with
  | |- context [@mbind _ _ _ _ _ (lua_isstring ?i) ?s] =>
      let v := eval cbn in (lua s !! (i - 1)%nat) in
      lazymatch v with Some ?x => is_var x; destruct x end
  end.

(** Two answers of the library to the same question, written differently. *)
Ltac clash :=
  match goal with
  | H1 : ?a = None, H2 : ?b = Some _ |- _ =>
      exfalso; generalize (eq_trans (eq_sym H1) H2); discriminate
  end.

Ltac agree :=
  match goal with
  | H1 : ?a = Some ?x, H2 : ?b = Some ?y |- _ =>
      tryif constr_eq x y then fail
      else (generalize (eq_trans (eq_sym H1) H2); intros [= ->])
  end.

(** The instances of [H : ∀ m, m < n → _] below the numeral [n]. *)
Ltac below H n :=
  lazymatch n with
  | S ?m => pose proof (H m ltac:(lia)); below H m
  | _ => idtac
  end.

Section Basics.

Context {Name Key Number : Type}.
Variable env : @Env Name Key Number.

Implicit Types s : @State Name Key Number.

Local Abbreviation M := (@M Name Key Number).
Local Abbreviation mem_only m := (@mem_only Name Key Number _ m).
Local Abbreviation yields_rc m := (@yields_rc Name Key Number m).

Lemma bind_unfold {A B} (f : A → M B) (m : M A) s :
  (m ≫= f) s =
  match m s with
  | (Val a, s') => f a s'
  | (Goto_error, s') => (Goto_error, s')
  | (Lua_error, s') => (Lua_error, s')
  | (Segfault, s') => (Segfault, s')
  end.
Proof. reflexivity. Qed.

Lemma read_bytes_length d p n : String.length (read_bytes env d p n) = n.
Proof.
  revert d p. induction n as [|n IH]; intros d p; [done|].
  destruct d; cbn; by rewrite IH.
Qed.

(** Reading exactly the content gives the content. *)
Lemma read_bytes_exact d p : read_bytes env d p (String.length d) = d.
Proof. induction d as [|a d IH]; cbn; [done | by rewrite IH]. Qed.

(** Reading one byte more gives the content and the byte after it. *)
Lemma read_bytes_past d p :
  read_bytes env d p (String.length d + 1) = d +:+ String (beyond env p) "".
Proof. induction d as [|a d IH]; cbn; [done | by rewrite IH]. Qed.

(** *** The cleanup label only touches memory *)

Lemma BIO_free_all_mem q s : ∃ f, BIO_free_all q s = (Val tt, with_mem f s).
Proof.
  unfold BIO_free_all. destruct (heap (mem s) !! q) as [[]|]; by eexists.
Qed.

Lemma EVP_PKEY_free_mem q s : ∃ f, EVP_PKEY_free q s = (Val tt, with_mem f s).
Proof.
  unfold EVP_PKEY_free. destruct (heap (mem s) !! q) as [[]|]; by eexists.
Qed.

Lemma X509_free_mem q s : ∃ f, X509_free q s = (Val tt, with_mem f s).
Proof.
  unfold X509_free. destruct (heap (mem s) !! q) as [[]|]; by eexists.
Qed.

Lemma X509_REQ_free_mem q s : ∃ f, X509_REQ_free q s = (Val tt, with_mem f s).
Proof.
  unfold X509_REQ_free. destruct (heap (mem s) !! q) as [[]|]; by eexists.
Qed.

Lemma mem_only_bind {A B} (m : M A) (k : A → M B) :
  mem_only m → (∀ a, mem_only (k a)) → mem_only (m ≫= k).
Proof.
  intros Hm Hk s. rewrite bind_unfold.
  destruct (Hm s) as (a & f & ->). destruct (Hk a (with_mem f s)) as (b & h & ->).
  by exists b, (h ∘ f).
Qed.

Lemma mem_only_ret {A} (a : A) : mem_only (mret a).
Proof. intros s. exists a, id. by destruct s. Qed.

Lemma mem_only_var x : mem_only (var x).
Proof. intros s. exists (x (frame s)), id. by destruct s. Qed.

Lemma mem_only_get_state : mem_only get_state.
Proof. intros s. exists s, id. by destruct s. Qed.

Lemma mem_only_when b (m : M unit) : mem_only m → mem_only (when b m).
Proof. intros Hm. destruct b; [done | apply mem_only_ret]. Qed.

Lemma mem_only_free (F : ptr → M unit) q :
  (∀ q s, ∃ f, F q s = (Val tt, with_mem f s)) → mem_only (F q).
Proof. intros HF s. destruct (HF q s) as [f ->]. by exists tt, f. Qed.

Lemma yields_rc_bind {A} (m : M A) (k : A → M Z) :
  (∀ a, yields_rc (k a)) → yields_rc (m ≫= k).
Proof.
  intros Hk s a s'. rewrite bind_unfold.
  destruct (m s) as [[x| | |] s1]; try discriminate. apply Hk.
Qed.

Lemma csr_crt__error_mem s : ∃ f, csr_crt__error s = (Val (rc s), with_mem f s).
Proof.
  assert (Hm : mem_only csr_crt__error).
  { unfold csr_crt__error.
    repeat first
      [ apply mem_only_bind; [|intros ?]
      | apply mem_only_var | apply mem_only_get_state | apply mem_only_ret
      | apply mem_only_when
      | apply (mem_only_free BIO_free_all), BIO_free_all_mem
      | apply (mem_only_free EVP_PKEY_free), EVP_PKEY_free_mem
      | apply (mem_only_free X509_free), X509_free_mem
      | apply (mem_only_free X509_REQ_free), X509_REQ_free_mem ]. }
  assert (Hr : yields_rc csr_crt__error).
  { unfold csr_crt__error. do 18 (apply yields_rc_bind; intros ?).
    intros s0 v s1 [= <- <-]. reflexivity. }
  destruct (Hm s) as (a & f & E). exists f. by rewrite E, (Hr _ _ _ E).
Qed.

End Basics.

Ltac local_eval :=
  repeat autounfold with csr; rewrite ?read_bytes_exact;
  run; repeat (ask; run); norm_state;
  lazymatch goal with
  | |- context [match _ with _ => _ end] => fail "stuck"
  | |- _ => idtac
  end.

(** Run the statement at the head of the program. *)
Ltac step :=
  repeat ask_head;
  lazymatch goal with
  | |- context [@mbind _ _ _ _ ?f ?m ?s] =>
      let K := fresh "K" in
      let HK := fresh "HK" in
      remember f as K eqn:HK in |- *;
      rewrite (bind_unfold K m s);
      local_eval;
      subst K; cbv beta iota zeta
  | |- _ => progress local_eval
  end.

Ltac run_sign :=
  lazymatch goal with
  | |- context [csr_crt_sign ?e ?k ?kl ?c ?cl ?r ?rl ?s] =>
      pattern (csr_crt_sign e k kl c cl r rl s)
  end;
  lazymatch goal with |- ?P ?t => change (holds P t) end;
  lazymatch goal with
  | |- holds ?P _ =>
      let Q := fresh "Q" in
      let HQ := fresh "HQ" in
      remember P as Q eqn:HQ;
      unfold csr_crt_sign; repeat step;
      subst Q; unfold holds; cbv beta
  end.

Section Runs.

Context {Name Key Number : Type}.
Variable env : @Env Name Key Number.

Implicit Types s : @State Name Key Number.
Implicit Types L : list (@lua_value Number).

Lemma csr_crt_sign_facts g L k c r :
  sign_facts env k c r L
    (csr_crt_sign env k (String.length k) c (String.length c) r (String.length r)
       (mkState g 0 L empty_memory [] [])).
Proof.
  unfold csr_crt_sign.
  repeat step.
  all: unfold sign_facts; cbn [fst snd rc lua stderr trace fmap list_fmap ev_call].
  all: split; [discriminate|].
  all: split; [reflexivity|].
  all: split; [compute_done|].
  all: split; [try discriminate|].
  all: try (split; [try discriminate|]).
  all: try discriminate.
  all: try (intros _; split; [reflexivity | by eexists]).
  all: try by (intros _; repeat split).
  intros _. unfold sign_ok.
  match goal with
  | Hk : pem_rsa_private_key _ _ _ = Some ?key, Hc : pem_x509 _ _ = Some ?ca,
    Hr : pem_x509_req _ _ = Some ?req, Hsn : r_subject _ = Some ?sn,
    Hisn : x_subject _ = Some ?isn, Hrk : r_pubkey _ = Some ?rk,
    Hs : sign_cert _ _ _ _ = Some ?sg, Hp : pem_of_x509 _ _ = Some ?pem |- _ =>
      exists key, ca, req, sn, isn, rk, sg, pem;
      repeat split; first [assumption | exact Hs | exact Hp | reflexivity]
  end.
Qed.

End Runs.

Section Args.

Context {Name Key Number : Type}.
Variable env : @Env Name Key Number.

Implicit Types L : list (@lua_value Number).

(** Three byte strings: the first empty one is reported, otherwise they
    are handed on with their lengths and the stack is left as it is. *)
Lemma csr_crt_args_strings g k c r rest :
  let s0 := mkState g 0 (LString k :: LString c :: LString r :: rest) empty_memory [] [] in
  csr_crt_args env s0 =
  if (String.length k =? 0)%nat || (String.length c =? 0)%nat || (String.length r =? 0)%nat
  then (Goto_error,
        mkState g 0 (LString k :: LString c :: LString r :: rest) empty_memory
                [Printed (empty_input_line k c r)] [])
  else (Val (k, String.length k, (c, String.length c), (r, String.length r)), s0).
Proof.
  intros s0. subst s0. unfold csr_crt_args.
  destruct k as [|ka k]; [by repeat step|].
  destruct c as [|ca c]; [by repeat step|].
  destruct r as [|ra r]; [by repeat step|].
  by repeat step.
Qed.

(** Any arguments: either one line is printed and nothing else happens,
    or three strings are handed on. *)
Lemma csr_crt_args_cases g L :
  (∃ msg L', csr_crt_args env (mkState g 0 L empty_memory [] []) =
               (Goto_error, mkState g 0 L' empty_memory [Printed msg] []))
  ∨ (∃ k c r L', csr_crt_args env (mkState g 0 L empty_memory [] []) =
                   (Val (k, String.length k, (c, String.length c), (r, String.length r)),
                    mkState g 0 L' empty_memory [] [])).
Proof.
  unfold csr_crt_args.
  destruct L as [|v1 [|v2 [|v3 rest]]]; try (left; repeat step; by eexists _, _).
  destruct v1; try (left; repeat step; by eexists _, _);
    (destruct v2; try (left; repeat step; by eexists _, _));
    (destruct v3; try (left; repeat step; by eexists _, _)).
  all: repeat step.
  all: first
    [ left; by eexists _, _
    | match goal with
      | |- _ ∨ (∃ k c r L', (Val (?a, _, (?b, _), (?d, _)), ?st) = _) =>
          right; exists a, b, d, (lua st); reflexivity
      end ].
Qed.

End Args.

Section Results.

Context {Name Key Number : Type}.
Variable env : @Env Name Key Number.

Implicit Types s : @State Name Key Number.
Implicit Types L : list (@lua_value Number).
Implicit Types out : @Outcome Name Key Number.

Lemma nonempty_length (k : string) : k ≠ "" → (String.length k =? 0)%nat = false.
Proof. by destruct k. Qed.

(** How [csr_crt] ends, given how the lines before the label end. *)
Lemma csr_crt_after s r s' :
  csr_crt_body env s = (r, s') →
  match r with
  | Val _ | Goto_error => ∃ f, csr_crt env s = (Val (rc s'), with_mem f s')
  | Lua_error => csr_crt env s = (Lua_error, s')
  | Segfault => csr_crt env s = (Segfault, s')
  end.
Proof.
  intros E. unfold csr_crt, at__error. rewrite E.
  destruct r; try done; apply csr_crt__error_mem.
Qed.

Lemma csr_crt_body_args_fail g L st :
  csr_crt_args env (mkState g 0 L empty_memory [] []) = (Goto_error, st) →
  csr_crt_body env (entry g L) = (Goto_error, st).
Proof.
  intros E. unfold csr_crt_body. rewrite bind_unfold. cbn [modify].
  change (with_rc 0 (entry g L)) with (@mkState Name Key Number g 0 L empty_memory [] []).
  by rewrite bind_unfold, E.
Qed.

Lemma csr_crt_body_sign g L L' k kl c cl r rl :
  csr_crt_args env (mkState g 0 L empty_memory [] [])
  = (Val (k, kl, (c, cl), (r, rl)), mkState g 0 L' empty_memory [] []) →
  csr_crt_body env (entry g L) =
  match csr_crt_sign env k kl c cl r rl (mkState g 0 L' empty_memory [] []) with
  | (Val _, s') => (Val tt, with_rc 1 s')
  | (res, s') => (res, s')
  end.
Proof.
  intros E. unfold csr_crt_body. rewrite bind_unfold. cbn [modify].
  change (with_rc 0 (entry g L)) with (@mkState Name Key Number g 0 L empty_memory [] []).
  rewrite bind_unfold, E. cbv beta iota. rewrite bind_unfold.
  by destruct (csr_crt_sign env k kl c cl r rl _) as [[]].
Qed.

Lemma csr_crt_via_sign g L L' k c r :
  csr_crt_args env (mkState g 0 L empty_memory [] [])
  = (Val (k, String.length k, (c, String.length c), (r, String.length r)),
     mkState g 0 L' empty_memory [] []) →
  finishes
    (csr_crt_sign env k (String.length k) c (String.length c) r (String.length r)
       (mkState g 0 L' empty_memory [] []))
    (csr_crt env (entry g L)).
Proof.
  intros E. apply csr_crt_body_sign in E.
  pose proof (csr_crt_sign_facts env g L' k c r) as F.
  destruct (csr_crt_sign env k _ c _ r _ _) as [[[]| | |] s'] eqn:Es;
    apply csr_crt_after in E.
  - destruct E as [f ->]. by repeat split.
  - destruct E as [f ->]. destruct F as (_ & Hrc & _). cbn in Hrc.
    unfold finishes. cbn. rewrite Hrc. by repeat split.
  - by destruct F as [[] _].
  - rewrite E. by repeat split.
Qed.

(** Every invocation is of one of two kinds: the arguments are refused,
    or the signing block runs on three strings. *)
Lemma csr_crt_cases g L :
  let out := csr_crt env (entry g L) in
  (out.1 = Val 0%Z ∧ trace out.2 = [] ∧ ∃ msg, stderr out.2 = [Printed msg])
  ∨ ∃ k c r L' b,
      b = csr_crt_sign env k (String.length k) c (String.length c) r (String.length r)
            (mkState g 0 L' empty_memory [] []) ∧
      sign_facts env k c r L' b ∧ finishes b out.
Proof.
  intros out. subst out.
  destruct (csr_crt_args_cases env g L) as [(msg & L' & E)|(k & c & r & L' & E)].
  - left. apply csr_crt_body_args_fail, csr_crt_after in E as [f ->]. cbn. eauto.
  - right. exists k, c, r, L'. eexists. split; [reflexivity|].
    split; [apply csr_crt_sign_facts | by apply csr_crt_via_sign].
Qed.

(** Three non-empty byte strings always reach the signing block. *)
Lemma csr_crt_strings g k c r rest :
  k ≠ "" → c ≠ "" → r ≠ "" →
  finishes
    (csr_crt_sign env k (String.length k) c (String.length c) r (String.length r)
       (mkState g 0 (LString k :: LString c :: LString r :: rest) empty_memory [] []))
    (csr_crt env (entry g (LString k :: LString c :: LString r :: rest))).
Proof.
  intros Hk Hc Hr. apply csr_crt_via_sign.
  rewrite csr_crt_args_strings. by rewrite !nonempty_length.
Qed.

End Results.

Section Claims.

Context {Name Key Number : Type}.
Variable env : @Env Name Key Number.

Implicit Types s : @State Name Key Number.
Implicit Types L : list (@lua_value Number).
Implicit Types out : @Outcome Name Key Number.

Lemma sign_ok_view k c r L s s' : same_view s s' → sign_ok env k c r L s → sign_ok env k c r L s'.
Proof.
  intros (Hl & He & Ht) (key & ca & req & sn & isn & rk & sg & pem & H).
  exists key, ca, req, sn, isn, rk, sg, pem. rewrite Hl, He, Ht. exact H.
Qed.

(** A successful invocation went through the whole signing block. *)
Lemma csr_crt_success g L :
  returned (csr_crt env (entry g L)) = Some 1%Z →
  ∃ k c r L', sign_ok env k c r L' (csr_crt env (entry g L)).2.
Proof.
  unfold returned.
  destruct (csr_crt_cases env g L) as [(E & _)|(k & c & r & L' & b & -> & F & V & E)];
    rewrite E; [discriminate|].
  destruct F as (_ & _ & _ & Hok & _).
  match type of E with context [match ?x with _ => _ end] => destruct x eqn:Eb end;
    try discriminate.
  intros _. exists k, c, r, L'. eapply sign_ok_view; [exact V|].
  apply Hok. by destruct a.
Qed.

Lemma results_pushed out L x :
  out.1 = Val 1%Z → lua out.2 = L ++ [x] → results out = Some [x].
Proof.
  unfold results. intros -> ->. f_equal.
  rewrite length_app. change (Z.to_nat 1) with 1%nat. cbn [length].
  replace (length L + 1 - 1)%nat with (length L) by lia.
  apply drop_app_length.
Qed.

Lemma results_none out : out.1 = Val 0%Z → results out = Some [].
Proof.
  unfold results. intros ->. f_equal. change (Z.to_nat 0) with 0%nat.
  rewrite Nat.sub_0_r. apply drop_all.
Qed.

Lemma returned_Val out n : returned out = Some n → out.1 = Val n.
Proof. unfold returned. destruct out.1; congruence. Qed.

Lemma output_cert_serialised out c :
  serialised (trace out.2) = [c] → output_cert out = Some c.
Proof. unfold output_cert. by intros ->. Qed.

(** X14.  [csr_crt] never leaves through a Lua error, whatever the
    arguments: each [luaL_checklstring] follows a successful
    [lua_isstring] on the same slot. *)
Lemma csr_crt_never_raises g L : (csr_crt env (entry g L)).1 ≠ Lua_error.
Proof.
  destruct (csr_crt_cases env g L) as [(E & _)|(k & c & r & L' & b & -> & F & V & E)];
    rewrite E; [discriminate|].
  destruct F as (Hne & _).
  match goal with |- context [match ?x with _ => _ end] => destruct x end; done.
Qed.

(** X15.  When [csr_crt] returns, it returns no value, or one value,
    which is a string. *)
Lemma csr_crt_return_shape g L n :
  returned (csr_crt env (entry g L)) = Some n →
  (n = 0%Z ∧ results (csr_crt env (entry g L)) = Some [])
  ∨ (n = 1%Z ∧ ∃ x, results (csr_crt env (entry g L)) = Some [LString x]).
Proof.
  intros Hn. pose proof (returned_Val _ _ Hn) as E.
  destruct (csr_crt_cases env g L) as [(E0 & _)|(k & c & r & L' & b & -> & F & V & E1)].
  - left. rewrite E0 in E. injection E as <-. split; [done|]. by apply results_none.
  - rewrite E in E1. revert E1.
    match goal with |- context [match ?x with _ => _ end] => destruct x eqn:Eb end;
      intros [= ->].
    + right. split; [done|].
      destruct (csr_crt_success g L Hn) as (k' & c' & r' & L'' & H).
      destruct H as (? & ? & ? & ? & ? & ? & ? & ? & _ & _ & _ & _ & _ & _ & _ & _ & _ & Hl & _).
      eexists. by eapply results_pushed.
    + left. split; [done|]. by apply results_none.
Qed.

(** *** The signing block on a valid triple, and on an unverified request *)

Lemma csr_crt_sign_valid g L k c r key ca req sn isn rk :
  pem_rsa_private_key env k "replace_me" = Some key →
  pem_x509 env c = Some ca →
  pem_x509_req env r = Some req →
  x_subject ca = Some isn → r_subject req = Some sn → r_pubkey req = Some rk →
  req_verify env req rk = 1%Z →
  (∀ n, lib_fails env n = false) →
  (∀ x, is_Some (sign_cert env x key EVP_sha256)) →
  (∀ x, is_Some (pem_of_x509 env x)) →
  (csr_crt_sign env k (String.length k) c (String.length c) r (String.length r)
     (mkState g 0 L empty_memory [] [])).1 = Val tt.
Proof.
  intros Hk Hc Hr Hisn Hsn Hrk Hv Hf Hs Hp.
  run_sign. reflexivity.
Qed.

Lemma csr_crt_sign_unverified g L k c r key ca req sn isn rk :
  pem_rsa_private_key env k "replace_me" = Some key →
  pem_x509 env c = Some ca →
  pem_x509_req env r = Some req →
  x_subject ca = Some isn → r_subject req = Some sn → r_pubkey req = Some rk →
  (∀ n, lib_fails env n = false) →
  req_verify env req rk ≠ 1%Z →
  ∃ s', csr_crt_sign env k (String.length k) c (String.length c) r (String.length r)
          (mkState g 0 L empty_memory [] []) = (Goto_error, s')
        ∧ stderr s' = [Described "Error verifying signature on request"]
        ∧ ev_call <$> trace s' = take 13 csr_crt_calls.
Proof.
  intros Hk Hc Hr Hisn Hsn Hrk Hf Hv.
  run_sign. by eexists.
Qed.

(** ** The claims about the order of calls and about successful runs *)

(** C3, as the code has it.  In every invocation the library calls made
    are an initial part of the sequence [csr_crt_calls]: the three
    decoders; creation of the certificate and assignment of version, CA
    key, serial number, subject and issuer; reading the request's key and
    verifying the request; assignment of the request's key and of the
    validity; signing, printing and pushing.  Hence every decoding call
    precedes every verification call, and a call of the signing stage is
    preceded by the verification of the request. *)
Theorem csr_crt_call_order g L :
  let out := csr_crt env (entry g L) in
  calls out `prefix_of` csr_crt_calls ∧
  (∀ i j c d, calls out !! i = Some c → calls out !! j = Some d →
              stage_of c = Decode → stage_of d = Verify → i < j) ∧
  (∀ i c, calls out !! i = Some c → stage_of c = Sign →
          ∃ j, j < i ∧ calls out !! j = Some X509_REQ_verify_).
Proof.
  intros out.
  assert (Hp : calls out `prefix_of` csr_crt_calls).
  { subst out. unfold calls.
    destruct (csr_crt_cases env g L) as [(_ & -> & _)|(k & c & r & L' & b & -> & F & V & _)].
    - apply prefix_nil.
    - destruct V as (_ & _ & ->). by destruct F as (_ & _ & Hp & _). }
  clearbody out. split; [exact Hp|]. split.
  - intros i j c d Hi Hj Hc Hd.
    pose proof (prefix_lookup_Some _ _ _ _ Hi Hp) as Hi'.
    pose proof (prefix_lookup_Some _ _ _ _ Hj Hp) as Hj'.
    unfold csr_crt_calls in Hi', Hj'.
    split_lookup i Hi'; simplify_eq; try discriminate Hc.
    all: split_lookup j Hj'; simplify_eq; try discriminate Hd; lia.
  - intros i c Hi Hc.
    pose proof (prefix_lookup_Some _ _ _ _ Hi Hp) as Hi'.
    exists 12. destruct Hp as [rest Hrest].
    assert (Hlen : i < length (calls out)) by (by eapply lookup_lt_Some).
    assert (12 < i).
    { clear Hi Hlen. unfold csr_crt_calls in Hi'.
      split_lookup i Hi'; simplify_eq; try discriminate Hc; lia. }
    split; [done|].
    assert (Hl : calls out !! 12 = csr_crt_calls !! 12).
    { rewrite Hrest. rewrite lookup_app_l by lia. done. }
    by rewrite Hl.
Qed.

(** C5, as the code has it.  In a successful invocation notBefore is
    the clock as read when the start date is set (during call 14) and
    notAfter is the clock as read when the end date is set (during call
    15) plus 31,536,000 seconds; the two are exactly 31,536,000 seconds
    apart when both readings give the same second. *)
Theorem csr_crt_validity g L :
  let out := csr_crt env (entry g L) in
  returned out = Some 1%Z →
  ∃ cert,
    output_cert out = Some cert ∧
    x_notBefore cert = Some (clock env 14) ∧
    x_notAfter cert = Some (clock env 15 + 31536000)%Z ∧
    (clock env 15 = clock env 14 →
     x_notAfter cert = (λ t, t + 31536000)%Z <$> x_notBefore cert).
Proof.
  intros out Hok.
  destruct (csr_crt_success g L Hok)
    as (k & c & r & L' & key & ca & req & sn & isn & rk & sg & pem & H).
  destruct H as (_ & _ & _ & _ & _ & _ & _ & _ & _ & _ & _ & _ & Hser).
  eexists. split; [by apply output_cert_serialised|]. cbn.
  rewrite Z.add_0_r. repeat split. by intros ->.
Qed.

(** C6.  In a successful invocation the version field of the output
    certificate is 2, which denotes X.509 version 3, and its serial
    number is 0. *)
Theorem csr_crt_version_and_serial g L :
  let out := csr_crt env (entry g L) in
  returned out = Some 1%Z →
  ∃ cert,
    output_cert out = Some cert ∧
    x_version cert = Some 2%Z ∧ x509_version_denoted 2 = 3%Z ∧
    x_serialNumber cert = Some 0%Z.
Proof.
  intros out Hok.
  destruct (csr_crt_success g L Hok)
    as (k & c & r & L' & key & ca & req & sn & isn & rk & sg & pem & H).
  destruct H as (_ & _ & _ & _ & _ & _ & _ & _ & _ & _ & _ & _ & Hser).
  eexists. split; [by apply output_cert_serialised|]. by repeat split.
Qed.

(** C7.  In a successful invocation the string returned is one byte
    longer than the PEM encoding [PEM_write_bio_X509] left in the
    buffer: it is that encoding followed by the byte after it. *)
Theorem csr_crt_output_length g L :
  let out := csr_crt env (entry g L) in
  returned out = Some 1%Z →
  ∃ cert pem x,
    output_cert out = Some cert ∧
    pem_of_x509 env cert = Some pem ∧
    results out = Some [LString x] ∧
    String.length x = String.length pem + 1 ∧
    x = pem +:+ String (beyond env 0) "".
Proof.
  intros out Hok.
  destruct (csr_crt_success g L Hok)
    as (k & c & r & L' & key & ca & req & sn & isn & rk & sg & pem & H).
  destruct H as (_ & _ & _ & _ & _ & _ & _ & _ & Hpem & Hl & _ & _ & Hser).
  eexists _, pem, _. split; [by apply output_cert_serialised|].
  split; [exact Hpem|].
  split; [eapply results_pushed; [by apply returned_Val|exact Hl]|].
  split; [apply read_bytes_length | apply read_bytes_past].
Qed.

End Claims.

(** ** How the argument checks and the signing block end *)

Section Ends.

Context {Name Key Number : Type}.
Variable env : @Env Name Key Number.

Implicit Types s : @State Name Key Number.
Implicit Types L : list (@lua_value Number).
Implicit Types out : @Outcome Name Key Number.

Lemma csr_crt_args_facts g L :
  args_facts env g L (csr_crt_args env (mkState g 0 L empty_memory [] [])).
Proof.
  unfold csr_crt_args.
  destruct L as [|v1 [|v2 [|v3 rest]]].
  all: repeat first [step | split_value].
  all: unfold args_facts; cbn [fst snd frame rc mem trace stderr lua take drop].
  all: do 5 (split; [reflexivity|]).
  all: split;
    [ repeat (constructor; [first [by left | right; eexists; split; [reflexivity|congruence]]|]); constructor |].
  all: try by eexists.
  all: split; [reflexivity|].
  all: do 3 (split; [reflexivity|]).
  all: do 3 (split; [discriminate|]).
  all: split; [reflexivity|].
  all: repeat (constructor; [first [by left | right; eexists; split; [reflexivity|congruence]]|]).
  all: constructor.
Qed.

Lemma csr_crt_sign_ends g L k c r :
  sign_ends env k c r
    (csr_crt_sign env k (String.length k) c (String.length c) r (String.length r)
       (mkState g 0 L empty_memory [] [])).
Proof.
  unfold csr_crt_sign.
  repeat step.
  all: unfold sign_ends; cbn [fst snd stderr trace fmap list_fmap ev_call].
  all: split; [discriminate|].
  all: try exact I.
  all: try (split; [assumption|split; [by eexists|split; [by eexists|reflexivity]]]).
  all: match goal with
       | |- ∃ i msg, _ ∧ _ ∧ ?t = _ =>
           let n := eval cbv in (pred (length t)) in
           exists n; eexists; split; [reflexivity|split; reflexivity]
       end.
Qed.

End Ends.

(** ** The memory after the cleanup *)

Section Memory.

Context {Name Key Number : Type}.
Variable env : @Env Name Key Number.

Implicit Types s : @State Name Key Number.
Implicit Types L : list (@lua_value Number).

Lemma csr_crt_sign_success_memory g L k c r :
  success_memory
    (csr_crt_sign env k (String.length k) c (String.length c) r (String.length r)
       (mkState g 0 L empty_memory [] [])).
Proof.
  unfold csr_crt_sign.
  repeat step.
  all: unfold success_memory, memory_after; cbn [fst snd].
  all: intros E; try discriminate E.
  split; vm_compute; reflexivity.
Qed.

Lemma csr_crt_sign_failure_memory L k c r :
  failure_memory
    (csr_crt_sign env k (String.length k) c (String.length c) r (String.length r)
       (mkState Toy.zeros 0 L empty_memory [] [])).
Proof.
  unfold csr_crt_sign.
  repeat step.
  all: unfold failure_memory, memory_after; cbn [fst snd].
  all: intros E; try discriminate E.
  all: split; [by vm_compute|].
  all: cbn [trace length Nat.ltb Nat.leb app].
  all: first [by vm_compute | exists 12%N; by vm_compute | exists 11%N; by vm_compute].
Qed.

End Memory.

(** ** csr_crt as the sequence of its parts *)

Section Composition.

Context {Name Key Number : Type}.
Variable env : @Env Name Key Number.

Implicit Types s : @State Name Key Number.
Implicit Types L : list (@lua_value Number).
Implicit Types out : @Outcome Name Key Number.

(** [csr_crt] as the sequence of its three parts. *)
Lemma csr_crt_by_parts g L :
  csr_crt env (entry g L) =
  match csr_crt_args env (mkState g 0 L empty_memory [] []) with
  | (Val (k, kl, (c, cl), (r, rl)), s1) =>
      match csr_crt_sign env k kl c cl r rl s1 with
      | (Val _, s2) => csr_crt__error (with_rc 1 s2)
      | (Goto_error, s2) => csr_crt__error s2
      | (Lua_error, s2) => (Lua_error, s2)
      | (Segfault, s2) => (Segfault, s2)
      end
  | (Goto_error, s1) => csr_crt__error s1
  | (Lua_error, s1) => (Lua_error, s1)
  | (Segfault, s1) => (Segfault, s1)
  end.
Proof.
  unfold csr_crt, at__error, csr_crt_body. rewrite bind_unfold. cbn [modify].
  change (with_rc 0 (entry g L)) with (@mkState Name Key Number g 0 L empty_memory [] []).
  rewrite bind_unfold.
  destruct (csr_crt_args env _) as [[[[[k kl] [c cl]] [r rl]]| | |] s1]; try reflexivity.
  rewrite bind_unfold.
  destruct (csr_crt_sign env k kl c cl r rl s1) as [[[]| | |] s2]; reflexivity.
Qed.

(** Every invocation is of one of two kinds: the arguments are refused
    and the cleanup runs on an empty memory, or the signing block runs on
    three non-empty strings read from the first three arguments. *)
Lemma csr_crt_kinds g L :
  (∃ s1 msg,
     csr_crt env (entry g L) = csr_crt__error s1 ∧
     s1 = mkState g 0 (lua s1) empty_memory [Printed msg] [] ∧
     drop 3 (lua s1) = drop 3 L ∧
     Forall2 (left_as env) (take 3 L) (take 3 (lua s1)))
  ∨ (∃ k c r L' b,
       b = csr_crt_sign env k (String.length k) c (String.length c) r (String.length r)
             (mkState g 0 L' empty_memory [] []) ∧
       k ≠ "" ∧ c ≠ "" ∧ r ≠ "" ∧
       take 3 L' = [LString k; LString c; LString r] ∧
       drop 3 L' = drop 3 L ∧
       Forall2 (left_as env) (take 3 L) (take 3 L') ∧
       Forall2 (read_as env) (take 3 L) [k; c; r] ∧
       csr_crt env (entry g L) =
       match b with
       | (Val _, s2) => csr_crt__error (with_rc 1 s2)
       | (Goto_error, s2) => csr_crt__error s2
       | (Lua_error, s2) => (Lua_error, s2)
       | (Segfault, s2) => (Segfault, s2)
       end).
Proof.
  rewrite csr_crt_by_parts.
  pose proof (csr_crt_args_facts env g L) as F. unfold args_facts in F.
  destruct (csr_crt_args env _) as [[[[[k kl] [c cl]] [r rl]]| | |] [f z l m e t]].
  all: cbn [fst snd frame rc mem trace stderr lua] in F.
  all: destruct F as (-> & -> & -> & -> & Hd & Hl & F); try done.
  - destruct F as (-> & -> & -> & -> & Hk & Hc & Hr & Ht & Hf).
    right. exists k, c, r, l. eexists. split; [reflexivity|]. by repeat split.
  - destruct F as (msg & ->). left. by eexists _, msg.
Qed.

(** The cleanup shows through: what the caller and the observer see after
    [csr_crt] is what the state before the cleanup showed. *)
Lemma cleanup_view s :
  (csr_crt__error s).1 = Val (rc s) ∧ same_view s (csr_crt__error s).2.
Proof. destruct (csr_crt__error_mem s) as [f ->]. by repeat split. Qed.

End Composition.

(** ** The cleanup label on a memory in which nothing was allocated *)

Section NothingAllocated.

Context {Name Key Number : Type}.
Variable env : @Env Name Key Number.

Implicit Types s : @State Name Key Number.
Implicit Types L : list (@lua_value Number).
Implicit Types out : @Outcome Name Key Number.

Local Abbreviation M := (@M Name Key Number).
Local Abbreviation records v m := (@records Name Key Number v m).

Lemma records_free (F : ptr → M unit) (p : ptr) :
  (∀ q s, heap (mem s) !! q = None → F q s = (Val tt, with_mem (bad_free q) s)) →
  records (stale_free p) (when (negb (p =? NULL)%N) (F p)).
Proof.
  intros HF s Hh Hf. unfold stale_free. destruct (p =? NULL)%N; cbn [negb when].
  - destruct s as [f z l [h b fr v] e t]. unfold mret, M_ret, with_mem. cbn.
    by rewrite app_nil_r.
  - rewrite HF by (by rewrite Hh, lookup_empty).
    unfold with_mem, bad_free. by rewrite Hf.
Qed.

Lemma BIO_free_all_stale q s :
  heap (mem s) !! q = None → BIO_free_all q s = (Val tt, with_mem (bad_free q) s).
Proof. intros E. unfold BIO_free_all. by rewrite E. Qed.

Lemma EVP_PKEY_free_stale q s :
  heap (mem s) !! q = None → EVP_PKEY_free q s = (Val tt, with_mem (bad_free q) s).
Proof. intros E. unfold EVP_PKEY_free. by rewrite E. Qed.

Lemma X509_free_stale q s :
  heap (mem s) !! q = None → X509_free q s = (Val tt, with_mem (bad_free q) s).
Proof. intros E. unfold X509_free. by rewrite E. Qed.

Lemma X509_REQ_free_stale q s :
  heap (mem s) !! q = None → X509_REQ_free q s = (Val tt, with_mem (bad_free q) s).
Proof. intros E. unfold X509_REQ_free. by rewrite E. Qed.

(** One test and release of the cleanup label, on a memory in which
    nothing was ever allocated. *)
Lemma stale_step {A} (x : Frame → ptr) (F : ptr → M unit) (k : M A) s :
  (∀ q s, heap (mem s) !! q = None → F q s = (Val tt, with_mem (bad_free q) s)) →
  heap (mem s) = ∅ → freed (mem s) = [] →
  (p ← var x; when (negb (p =? NULL)%N) (F p);; k) s
  = k (with_mem (λ m, mkMemory (heap m) (brk m) (freed m)
                               (violations m ++ stale_free (x (frame s)))) s).
Proof.
  intros HF Hh Hf. rewrite bind_unfold.
  change (var x s) with (@Val ptr (x (frame s)), s). cbv beta iota.
  rewrite bind_unfold. by rewrite (records_free F (x (frame s)) HF s Hh Hf).
Qed.

Lemma stale_free_filter (l : list ptr) :
  l ≫= stale_free = InvalidFree <$> filter (λ p, p ≠ NULL) l.
Proof.
  induction l as [|p l IH]; [done|].
  rewrite filter_cons.
  change ((p :: l) ≫= stale_free) with (stale_free p ++ (l ≫= stale_free)).
  rewrite IH. unfold stale_free.
  destruct (N.eqb_spec p NULL) as [->|Hp].
  - by rewrite decide_False by (intros H; by apply H).
  - by rewrite decide_True.
Qed.

(** The cleanup on a memory in which nothing was ever allocated. *)
Lemma cleanup_of_nothing g z l b v e t :
  csr_crt__error (@mkState Name Key Number g z l (mkMemory ∅ b [] v) e t)
  = (Val z, mkState g z l (mkMemory ∅ b [] (v ++ (locals g ≫= stale_free))) e t).
Proof.
  unfold csr_crt__error.
  rewrite (stale_step pkeybio BIO_free_all) by first [done | apply BIO_free_all_stale].
  cbv beta iota delta [with_mem mem heap brk freed violations frame rc lua stderr trace].
  rewrite (stale_step pKey EVP_PKEY_free) by first [done | apply EVP_PKEY_free_stale].
  cbv beta iota delta [with_mem mem heap brk freed violations frame rc lua stderr trace].
  rewrite (stale_step cacertbio BIO_free_all) by first [done | apply BIO_free_all_stale].
  cbv beta iota delta [with_mem mem heap brk freed violations frame rc lua stderr trace].
  rewrite (stale_step cacert X509_free) by first [done | apply X509_free_stale].
  cbv beta iota delta [with_mem mem heap brk freed violations frame rc lua stderr trace].
  rewrite (stale_step req_pubkey EVP_PKEY_free) by first [done | apply EVP_PKEY_free_stale].
  cbv beta iota delta [with_mem mem heap brk freed violations frame rc lua stderr trace].
  rewrite (stale_step reqbio BIO_free_all) by first [done | apply BIO_free_all_stale].
  cbv beta iota delta [with_mem mem heap brk freed violations frame rc lua stderr trace].
  rewrite (stale_step certreq X509_REQ_free) by first [done | apply X509_REQ_free_stale].
  cbv beta iota delta [with_mem mem heap brk freed violations frame rc lua stderr trace].
  rewrite (stale_step newcert X509_free) by first [done | apply X509_free_stale].
  cbv beta iota delta [with_mem mem heap brk freed violations frame rc lua stderr trace].
  rewrite (stale_step outbio BIO_free_all) by first [done | apply BIO_free_all_stale].
  cbv beta iota delta [with_mem mem heap brk freed violations frame rc lua stderr trace].
  unfold locals. cbn. by rewrite app_nil_r, <- !(assoc_L (++)).
Qed.

(** When every local is [NULL] the label releases nothing. *)
Lemma stale_free_null (l : list ptr) :
  Forall (λ p, p = NULL) l → l ≫= stale_free = [].
Proof.
  induction 1 as [|p l -> _ IH]; [done|].
  change ((NULL :: l) ≫= stale_free) with (stale_free NULL ++ (l ≫= stale_free)).
  by rewrite IH.
Qed.

End NothingAllocated.

(** ** The signing block on inputs that make it stop *)

Section Forward.

Context {Name Key Number : Type}.
Variable env : @Env Name Key Number.

Implicit Types s : @State Name Key Number.
Implicit Types L : list (@lua_value Number).
Implicit Types out : @Outcome Name Key Number.

(** What [csr_crt] shows when the argument checks print [msg]. *)
Lemma csr_crt_refuses g L L' msg :
  csr_crt_args env (mkState g 0 L empty_memory [] [])
  = (Goto_error, mkState g 0 L' empty_memory [Printed msg] []) →
  returned (csr_crt env (entry g L)) = Some 0%Z ∧
  results (csr_crt env (entry g L)) = Some [] ∧
  lua (csr_crt env (entry g L)).2 = L' ∧
  stderr (csr_crt env (entry g L)).2 = [Printed msg] ∧
  calls (csr_crt env (entry g L)) = [].
Proof.
  intros E. rewrite csr_crt_by_parts, E.
  destruct (cleanup_view (@mkState Name Key Number g 0 L' empty_memory [Printed msg] [])) as [Hv (Hl & He & Ht)].
  unfold returned, calls. rewrite Hv, Hl, He, Ht.
  split; [reflexivity|]. split; [by apply results_none|]. by repeat split.
Qed.

(** What [csr_crt] shows when the signing block, run on three non-empty
    strings, jumps to the label. *)
Lemma csr_crt_fails g k c r rest s' :
  k ≠ "" → c ≠ "" → r ≠ "" →
  csr_crt_sign env k (String.length k) c (String.length c) r (String.length r)
    (mkState g 0 (LString k :: LString c :: LString r :: rest) empty_memory [] [])
  = (Goto_error, s') →
  returned (csr_crt env (entry g (LString k :: LString c :: LString r :: rest))) = Some 0%Z ∧
  results (csr_crt env (entry g (LString k :: LString c :: LString r :: rest))) = Some [] ∧
  same_view s' (csr_crt env (entry g (LString k :: LString c :: LString r :: rest))).2.
Proof.
  intros Nk Nc Nr E.
  destruct (csr_crt_strings env g k c r rest Nk Nc Nr) as [V Ho].
  rewrite E in V, Ho. cbn [fst snd] in V, Ho.
  unfold returned. rewrite Ho. split; [reflexivity|]. split; [by apply results_none|exact V].
Qed.

Lemma csr_crt_sign_bad_key g L k c r :
  pem_rsa_private_key env k "replace_me" = None →
  ∃ s', csr_crt_sign env k (String.length k) c (String.length c) r (String.length r)
          (mkState g 0 L empty_memory [] []) = (Goto_error, s')
        ∧ lua s' = L
        ∧ stderr s' = [Described "Failed to create key bio"]
        ∧ ev_call <$> trace s' = take 1 csr_crt_calls.
Proof. intros Hk. run_sign. by eexists. Qed.

Lemma csr_crt_sign_bad_request g L k c r key :
  pem_rsa_private_key env k "replace_me" = Some key →
  pem_x509_req env r = None →
  ∃ s', csr_crt_sign env k (String.length k) c (String.length c) r (String.length r)
          (mkState g 0 L empty_memory [] []) = (Goto_error, s')
        ∧ lua s' = L
        ∧ stderr s' = [Described "Error can't read X509 request data into memory"]
        ∧ ev_call <$> trace s' = take 3 csr_crt_calls.
Proof. intros Hk Hr. run_sign; by eexists. Qed.

Lemma csr_crt_sign_bad_ca g L k c r key req sn :
  pem_rsa_private_key env k "replace_me" = Some key →
  pem_x509 env c = None →
  pem_x509_req env r = Some req →
  r_subject req = Some sn →
  (∀ n, lib_fails env n = false) →
  ∃ s', csr_crt_sign env k (String.length k) c (String.length c) r (String.length r)
          (mkState g 0 L empty_memory [] []) = (Segfault, s')
        ∧ lua s' = L
        ∧ stderr s' = []
        ∧ ev_call <$> trace s' = take 10 csr_crt_calls.
Proof. intros Hk Hc Hr Hsn Hf. run_sign. by eexists. Qed.

Lemma csr_crt_sign_cannot_sign g L k c r key ca req sn isn rk :
  pem_rsa_private_key env k "replace_me" = Some key →
  pem_x509 env c = Some ca →
  pem_x509_req env r = Some req →
  x_subject ca = Some isn → r_subject req = Some sn → r_pubkey req = Some rk →
  req_verify env req rk = 1%Z →
  (∀ n, lib_fails env n = false) →
  sign_cert env (to_be_signed env sn isn rk) key EVP_sha256 = None →
  ∃ s', csr_crt_sign env k (String.length k) c (String.length c) r (String.length r)
          (mkState g 0 L empty_memory [] []) = (Goto_error, s')
        ∧ lua s' = L
        ∧ stderr s' = [Described "Error signing the new certificate"]
        ∧ ev_call <$> trace s' = take 17 csr_crt_calls
        ∧ serialised (trace s') = [].
Proof.
  intros Hk Hc Hr Hisn Hsn Hrk Hv Hf Hs.
  run_sign; first [clash | by eexists].
Qed.

Lemma csr_crt_sign_cannot_print g L k c r key ca req sn isn rk sg :
  pem_rsa_private_key env k "replace_me" = Some key →
  pem_x509 env c = Some ca →
  pem_x509_req env r = Some req →
  x_subject ca = Some isn → r_subject req = Some sn → r_pubkey req = Some rk →
  req_verify env req rk = 1%Z →
  (∀ n, lib_fails env n = false) →
  sign_cert env (to_be_signed env sn isn rk) key EVP_sha256 = Some sg →
  pem_of_x509 env (with_signature EVP_sha256 sg (to_be_signed env sn isn rk)) = None →
  ∃ s', csr_crt_sign env k (String.length k) c (String.length c) r (String.length r)
          (mkState g 0 L empty_memory [] []) = (Goto_error, s')
        ∧ lua s' = L
        ∧ stderr s' = [Described "Error printing the signed certificate"]
        ∧ ev_call <$> trace s' = take 18 csr_crt_calls.
Proof.
  intros Hk Hc Hr Hisn Hsn Hrk Hv Hf Hs Hp.
  run_sign; try agree; first [clash | by eexists].
Qed.

End Forward.

(** ** Runs in which nothing is released that is not live *)

Section Clean.

Context {Name Key Number : Type}.
Variable env : @Env Name Key Number.

Implicit Types s : @State Name Key Number.
Implicit Types L : list (@lua_value Number).
Implicit Types out : @Outcome Name Key Number.

(** [csr_crt] on three non-empty byte strings: the signing block, then
    the label. *)
Lemma csr_crt_on_strings g k c r rest :
  k ≠ "" → c ≠ "" → r ≠ "" →
  csr_crt env (entry g (LString k :: LString c :: LString r :: rest)) =
  match csr_crt_sign env k (String.length k) c (String.length c) r (String.length r)
          (mkState g 0 (LString k :: LString c :: LString r :: rest) empty_memory [] []) with
  | (Val _, s2) => csr_crt__error (with_rc 1 s2)
  | (Goto_error, s2) => csr_crt__error s2
  | (Lua_error, s2) => (Lua_error, s2)
  | (Segfault, s2) => (Segfault, s2)
  end.
Proof.
  intros Nk Nc Nr. rewrite csr_crt_by_parts, csr_crt_args_strings.
  by rewrite !nonempty_length.
Qed.

(** Before the label nothing is released but the buffer of the output
    BIO, once. *)
Lemma csr_crt_sign_no_violation g L k c r :
  violations
    (mem (csr_crt_sign env k (String.length k) c (String.length c) r (String.length r)
            (mkState g 0 L empty_memory [] [])).2) = [].
Proof. run_sign; reflexivity. Qed.

(** When the argument checks refuse and the variables read at the label
    are all [NULL], the label releases nothing. *)
Lemma csr_crt_refuses_cleanly g L L' msg :
  Forall (λ p, p = NULL) (locals g) →
  csr_crt_args env (mkState g 0 L empty_memory [] [])
  = (Goto_error, mkState g 0 L' empty_memory [Printed msg] []) →
  mem (csr_crt env (entry g L)).2 = empty_memory.
Proof.
  intros Hg E. rewrite csr_crt_by_parts, E. unfold empty_memory.
  rewrite cleanup_of_nothing. cbn [fst snd mem app].
  by rewrite (stale_free_null _ Hg).
Qed.

(** What [csr_crt] shows when the argument checks print [msg] and the
    variables read at the label are all [NULL]. *)
Lemma csr_crt_refuses_with_nothing g L L' msg :
  Forall (λ p, p = NULL) (locals g) →
  csr_crt_args env (mkState g 0 L empty_memory [] [])
  = (Goto_error, mkState g 0 L' empty_memory [Printed msg] []) →
  returned (csr_crt env (entry g L)) = Some 0%Z ∧
  results (csr_crt env (entry g L)) = Some [] ∧
  lua (csr_crt env (entry g L)).2 = L' ∧
  stderr (csr_crt env (entry g L)).2 = [Printed msg] ∧
  calls (csr_crt env (entry g L)) = [] ∧
  mem (csr_crt env (entry g L)).2 = empty_memory.
Proof.
  intros Hg E.
  destruct (csr_crt_refuses env g L L' msg E) as (H1 & H2 & H3 & H4 & H5).
  pose proof (csr_crt_refuses_cleanly g L L' msg Hg E) as H6. by repeat split.
Qed.

(** The memory after [csr_crt], when the signing block has jumped to the
    label. *)
Lemma csr_crt_fails_cleanly g k c r rest s' :
  k ≠ "" → c ≠ "" → r ≠ "" →
  csr_crt_sign env k (String.length k) c (String.length c) r (String.length r)
    (mkState g 0 (LString k :: LString c :: LString r :: rest) empty_memory [] [])
  = (Goto_error, s') →
  mem (csr_crt env (entry g (LString k :: LString c :: LString r :: rest))).2
  = memory_after (Goto_error, s').
Proof. intros Nk Nc Nr E. by rewrite csr_crt_on_strings, E. Qed.

Lemma csr_crt_sign_bad_key_clean g L k c r :
  Forall (λ p, p = NULL) (tail (locals g)) →
  pem_rsa_private_key env k "replace_me" = None →
  violations
    (memory_after
       (csr_crt_sign env k (String.length k) c (String.length c) r (String.length r)
          (mkState g 0 L empty_memory [] []))) = [].
Proof.
  intros Hg Hk. destruct g as [p1 p2 p3 p4 p5 p6 p7 p8 p9].
  cbn [locals tail pKey cacertbio cacert req_pubkey reqbio certreq newcert outbio] in Hg.
  repeat (apply Forall_cons in Hg as [-> Hg]).
  run_sign. by vm_compute.
Qed.

Lemma csr_crt_sign_bad_request_clean g L k c r key :
  req_pubkey g = NULL → newcert g = NULL → outbio g = NULL →
  pem_rsa_private_key env k "replace_me" = Some key →
  pem_x509_req env r = None →
  violations
    (memory_after
       (csr_crt_sign env k (String.length k) c (String.length c) r (String.length r)
          (mkState g 0 L empty_memory [] []))) = [].
Proof.
  destruct g as [p1 p2 p3 p4 p5 p6 p7 p8 p9].
  cbn [req_pubkey newcert outbio]. intros -> -> -> Hk Hr.
  run_sign; by vm_compute.
Qed.

Lemma csr_crt_sign_unverified_clean g L k c r key ca req sn isn rk :
  outbio g = NULL →
  pem_rsa_private_key env k "replace_me" = Some key →
  pem_x509 env c = Some ca →
  pem_x509_req env r = Some req →
  x_subject ca = Some isn → r_subject req = Some sn → r_pubkey req = Some rk →
  (∀ n, lib_fails env n = false) →
  req_verify env req rk ≠ 1%Z →
  violations
    (memory_after
       (csr_crt_sign env k (String.length k) c (String.length c) r (String.length r)
          (mkState g 0 L empty_memory [] []))) = [].
Proof.
  destruct g as [p1 p2 p3 p4 p5 p6 p7 p8 p9].
  cbn [outbio]. intros -> Hk Hc Hr Hisn Hsn Hrk Hf Hv.
  run_sign. by vm_compute.
Qed.

Lemma csr_crt_sign_cannot_sign_clean g L k c r key ca req sn isn rk :
  outbio g = NULL →
  pem_rsa_private_key env k "replace_me" = Some key →
  pem_x509 env c = Some ca →
  pem_x509_req env r = Some req →
  x_subject ca = Some isn → r_subject req = Some sn → r_pubkey req = Some rk →
  req_verify env req rk = 1%Z →
  (∀ n, lib_fails env n = false) →
  sign_cert env (to_be_signed env sn isn rk) key EVP_sha256 = None →
  violations
    (memory_after
       (csr_crt_sign env k (String.length k) c (String.length c) r (String.length r)
          (mkState g 0 L empty_memory [] []))) = [].
Proof.
  destruct g as [p1 p2 p3 p4 p5 p6 p7 p8 p9].
  cbn [outbio]. intros -> Hk Hc Hr Hisn Hsn Hrk Hv Hf Hs.
  run_sign; first [clash | by vm_compute].
Qed.

Lemma csr_crt_sign_out_of_resources_clean g L k c r key ca req sn isn rk n :
  req_pubkey g = NULL → outbio g = NULL →
  pem_rsa_private_key env k "replace_me" = Some key →
  pem_x509 env c = Some ca →
  pem_x509_req env r = Some req →
  x_subject ca = Some isn → r_subject req = Some sn → r_pubkey req = Some rk →
  req_verify env req rk = 1%Z →
  may_run_out <$> csr_crt_calls !! n = Some true →
  lib_fails env n = true →
  (∀ m, m < n → lib_fails env m = false) →
  violations
    (memory_after
       (csr_crt_sign env k (String.length k) c (String.length c) r (String.length r)
          (mkState g 0 L empty_memory [] []))) = [].
Proof.
  destruct g as [p1 p2 p3 p4 p5 p6 p7 p8 p9].
  cbn [req_pubkey outbio]. intros -> -> Hk Hc Hr Hisn Hsn Hrk Hv Hmay Hn Hlt.
  unfold csr_crt_calls in Hmay.
  split_lookup n Hmay; try discriminate Hmay; clear Hmay.
  all: match type of Hn with lib_fails _ ?n = _ => below Hlt n end.
  all: run_sign; by vm_compute.
Qed.

End Clean.

(** ** The claims about runs that reach the cleanup label *)

Section WholeRuns.

Context {Name Key Number : Type}.
Variable env : @Env Name Key Number.

Implicit Types s : @State Name Key Number.
Implicit Types L : list (@lua_value Number).
Implicit Types out : @Outcome Name Key Number.

(** C1, as the code has it.  For a valid triple (three non-empty blobs
    that decode, a request whose subject and key can be read and whose
    self-signature verifies against its own key, a library that does not
    run out of resources and can sign and print), whatever the variables
    held on entry, the lines before the cleanup label complete: they
    have pushed one value, the PEM encoding (with the byte that follows
    it) of a certificate whose issuer is the CA certificate's subject,
    whose subject is the request's subject and whose public key is the
    request's public key, and they have released nothing that was not
    live.  The cleanup label, which runs next, then releases the buffer
    of the output BIO a second time: [BUF_MEM_free] released it on line
    284, and [BIO_free_all] on line 323 releases it together with the
    BIO that owns it.  The theorem says nothing about what [csr_crt]
    returns after that. *)
Theorem csr_crt_valid_request_is_signed_then_freed_twice
    g pkey crt csr rest key ca req sn isn rk :
  pkey ≠ "" → crt ≠ "" → csr ≠ "" →
  pem_rsa_private_key env pkey "replace_me" = Some key →
  pem_x509 env crt = Some ca →
  pem_x509_req env csr = Some req →
  x_subject ca = Some isn → r_subject req = Some sn → r_pubkey req = Some rk →
  req_verify env req rk = 1%Z →
  (∀ n, lib_fails env n = false) →
  (∀ x, is_Some (sign_cert env x key EVP_sha256)) →
  (∀ x, is_Some (pem_of_x509 env x)) →
  let args := LString pkey :: LString crt :: LString csr :: rest in
  ∃ s2 cert pem,
    csr_crt_sign env pkey (String.length pkey) crt (String.length crt)
      csr (String.length csr) (mkState g 0 args empty_memory [] []) = (Val tt, s2) ∧
    serialised (trace s2) = [cert] ∧
    pem_of_x509 env cert = Some pem ∧
    lua s2 = args ++ [LString (pem +:+ String (beyond env 0) "")] ∧
    x_issuer cert = x_subject ca ∧
    x_subject cert = r_subject req ∧
    x_pubkey cert = r_pubkey req ∧
    violations (mem s2) = [] ∧
    csr_crt env (entry g args) = csr_crt__error (with_rc 1 s2) ∧
    violations (mem (csr_crt__error (with_rc 1 s2)).2) = [DoubleFree 14%N].
Proof.
  intros Np Nc Nr Hk Hc Hr Hisn Hsn Hrk Hv Hf Hs Hp args.
  pose proof (csr_crt_sign_valid env g args pkey crt csr key ca req sn isn rk
                Hk Hc Hr Hisn Hsn Hrk Hv Hf Hs Hp) as Eb.
  pose proof (csr_crt_sign_facts env g args pkey crt csr) as (_ & _ & _ & Hok & _).
  pose proof (csr_crt_sign_no_violation env g args pkey crt csr) as Hno.
  pose proof (csr_crt_sign_success_memory env g args pkey crt csr) as Hm.
  pose proof (csr_crt_on_strings env g pkey crt csr rest Np Nc Nr) as E.
  fold args in E. unfold success_memory, memory_after in Hm.
  destruct (csr_crt_sign env pkey _ crt _ csr _ _) as [b s2]. cbn [fst snd] in *.
  subst b. destruct (Hm eq_refl) as [_ Hd].
  destruct (Hok eq_refl)
    as (key' & ca' & req' & sn' & isn' & rk' & sg & pem
        & Hk' & Hc' & Hr' & Hsn' & Hisn' & Hrk' & _ & _ & Hpem & Hl & _ & _ & Hser).
  simplify_eq.
  exists s2. eexists _, pem.
  split; [reflexivity|]. split; [exact Hser|]. split; [exact Hpem|].
  split; [by rewrite <- read_bytes_past|].
  split; [by rewrite Hisn|]. split; [by rewrite Hsn|]. split; [by rewrite Hrk|].
  split; [exact Hno|]. split; [exact E|exact Hd].
Qed.



End WholeRuns.

(** ** The argument checks *)

Section ArgumentChecks.

Context {Name Key Number : Type}.
Variable env : @Env Name Key Number.

Implicit Types s : @State Name Key Number.
Implicit Types L : list (@lua_value Number).
Implicit Types out : @Outcome Name Key Number.

(** X1.  Called with fewer than three arguments, [csr_crt] prints the
    line about the number of arguments and jumps to the cleanup label
    before any of the nine variables read there is assigned.  When these
    nine are [NULL] on entry, it returns no value and leaves the stack as
    it is, having made none of the calls listed in [csr_crt_calls] and
    having allocated and released nothing. *)
Theorem csr_crt_needs_three_arguments g L :
  length L < 3 →
  Forall (λ p, p = NULL) (locals g) →
  let out := csr_crt env (entry g L) in
  returned out = Some 0%Z ∧
  results out = Some [] ∧
  lua out.2 = L ∧
  stderr out.2 = [Printed "you must pass one argument: (priv_key, csr)!"] ∧
  calls out = [] ∧
  mem out.2 = empty_memory.
Proof.
  intros Hlen Hg out. subst out. apply csr_crt_refuses_with_nothing; [exact Hg|].
  destruct L as [|a [|b [|c L]]]; [| | |cbn in Hlen; lia].
  all: unfold csr_crt_args; by repeat step.
Qed.

(** X2.  When at least three arguments are passed and the first of them
    that is neither a string nor a number comes after non-empty strings
    only, [csr_crt] prints the line for that position and jumps to the
    cleanup label before any of the nine variables read there is
    assigned.  When these nine are [NULL] on entry, it returns no value
    and leaves the stack as it is, having made none of the calls listed
    in [csr_crt_calls] and having allocated and released nothing. *)
Theorem csr_crt_rejects_non_string g (pre : list string) v post msg :
  Forall (λ x, x ≠ "") pre →
  csr_crt_type_lines !! length pre = Some msg →
  (∀ x, v ≠ LString x) → (∀ n, v ≠ LNumber n) →
  (3 ≤ length pre + 1 + length post)%nat →
  Forall (λ p, p = NULL) (locals g) →
  let L := (LString <$> pre) ++ v :: post in
  let out := csr_crt env (entry g L) in
  returned out = Some 0%Z ∧
  results out = Some [] ∧
  lua out.2 = L ∧
  stderr out.2 = [Printed msg] ∧
  calls out = [] ∧
  mem out.2 = empty_memory.
Proof.
  intros Hne Hmsg Hs Hn Hlen Hg L out. subst out L.
  apply csr_crt_refuses_with_nothing; [exact Hg|]. clear Hg.
  destruct pre as [|k [|c [|r pre]]]; cbn in Hmsg; try discriminate Hmsg.
  all: injection Hmsg as <-.
  all: repeat match goal with
         | H : Forall _ (?x :: _) |- _ =>
             apply Forall_cons in H as [? H]; destruct x; [done|]
         end.
  - destruct post as [|p1 [|p2 post]]; [cbn in Hlen; lia..|].
    destruct v as [|b|p|n|x|i|i|i|i]; try (by destruct (Hs x)); try (by destruct (Hn n)).
    all: unfold csr_crt_args; by repeat step.
  - destruct post as [|p1 post]; [cbn in Hlen; lia|].
    destruct v as [|b|p|n|x|i|i|i|i]; try (by destruct (Hs x)); try (by destruct (Hn n)).
    all: unfold csr_crt_args; by repeat step.
  - destruct v as [|b|p|n|x|i|i|i|i]; try (by destruct (Hs x)); try (by destruct (Hn n)).
    all: unfold csr_crt_args; by repeat step.
Qed.

(** X3.  A number among the three arguments is read as its text: when
    only non-empty strings come before it, the invocation ends exactly
    as with that text in its place. *)
Theorem csr_crt_reads_number_as_string g (pre : list string) n post :
  Forall (λ x, x ≠ "") pre →
  length pre < 3 →
  (3 ≤ length pre + 1 + length post)%nat →
  csr_crt env (entry g ((LString <$> pre) ++ LNumber n :: post))
  = csr_crt env (entry g ((LString <$> pre) ++ LString (lua_number2str env n) :: post)).
Proof.
  intros Hne Hpre Hlen. rewrite !csr_crt_by_parts.
  assert (E : csr_crt_args env
                (mkState g 0 ((LString <$> pre) ++ LNumber n :: post) empty_memory [] [])
              = csr_crt_args env
                  (mkState g 0 ((LString <$> pre) ++ LString (lua_number2str env n) :: post)
                     empty_memory [] [])); [|by rewrite E].
  destruct pre as [|k [|c [|r pre]]]; [| | |cbn in Hpre; lia].
  all: repeat match goal with
         | H : Forall _ (?x :: _) |- _ =>
             apply Forall_cons in H as [? H]; destruct x; [done|]
         end.
  - destruct post as [|p1 [|p2 post]]; [cbn in Hlen; lia..|].
    unfold csr_crt_args. repeat first [step | split_value]. all: reflexivity.
  - destruct post as [|p1 post]; [cbn in Hlen; lia|].
    unfold csr_crt_args. repeat first [step | split_value]. all: reflexivity.
  - unfold csr_crt_args. repeat first [step | split_value]. all: reflexivity.
Qed.

End ArgumentChecks.

(** ** Where a stage fails *)

Section Stages.

Context {Name Key Number : Type}.
Variable env : @Env Name Key Number.

Implicit Types s : @State Name Key Number.
Implicit Types L : list (@lua_value Number).
Implicit Types out : @Outcome Name Key Number.

(** What [csr_crt] shows when the signing block, run on three non-empty
    strings, prints [msg] after [n] calls and jumps to the label. *)
Lemma csr_crt_fails_with g k c r rest s' msg n :
  k ≠ "" → c ≠ "" → r ≠ "" →
  csr_crt_sign env k (String.length k) c (String.length c) r (String.length r)
    (mkState g 0 (LString k :: LString c :: LString r :: rest) empty_memory [] [])
  = (Goto_error, s') →
  stderr s' = [Described msg] →
  ev_call <$> trace s' = take n csr_crt_calls →
  failed_with (spec_error_kind (Described msg))
    (csr_crt env (entry g (LString k :: LString c :: LString r :: rest))) ∧
  stderr (csr_crt env (entry g (LString k :: LString c :: LString r :: rest))).2
  = [Described msg] ∧
  results (csr_crt env (entry g (LString k :: LString c :: LString r :: rest))) = Some [] ∧
  calls (csr_crt env (entry g (LString k :: LString c :: LString r :: rest)))
  = take n csr_crt_calls.
Proof.
  intros Nk Nc Nr E He Ht.
  destruct (csr_crt_fails env g k c r rest s' Nk Nc Nr E) as (Hr & Hres & _ & He' & Ht').
  rewrite He in He'. unfold calls. rewrite Ht', Ht.
  split; [|by repeat split]. split; [by apply returned_Val|]. by eexists.
Qed.

(** X4.  When the three blobs are non-empty, the private key does not
    decode under the fixed passphrase, and the eight variables read at
    the cleanup label that are not assigned on this path (all but
    [pkeybio]) are [NULL] on entry, [csr_crt] fails with a decode error:
    it prints the key line and returns no value; of the calls listed in
    [csr_crt_calls] it has made the first only, the key decoder; and the
    cleanup label has released nothing that was not live. *)
Theorem csr_crt_rejects_undecodable_key g pkey crt csr rest :
  pkey ≠ "" → crt ≠ "" → csr ≠ "" →
  pem_rsa_private_key env pkey "replace_me" = None →
  Forall (λ p, p = NULL) (tail (locals g)) →
  let out := csr_crt env (entry g (LString pkey :: LString crt :: LString csr :: rest)) in
  failed_with DecodeError out ∧
  stderr out.2 = [Described "Failed to create key bio"] ∧
  results out = Some [] ∧
  calls out = [PEM_read_bio_RSAPrivateKey_] ∧
  violations (mem out.2) = [].
Proof.
  intros Np Nc Nr Hk Hg out. subst out.
  destruct (csr_crt_sign_bad_key env g (LString pkey :: LString crt :: LString csr :: rest)
              pkey crt csr Hk) as (s' & E & _ & He & Ht).
  pose proof (csr_crt_sign_bad_key_clean env g
                (LString pkey :: LString crt :: LString csr :: rest) pkey crt csr Hg Hk)
    as Hno.
  rewrite E in Hno.
  destruct (csr_crt_fails_with g pkey crt csr rest s' _ 1 Np Nc Nr E He Ht)
    as (H1 & H2 & H3 & H4).
  rewrite (csr_crt_fails_cleanly env g pkey crt csr rest s' Np Nc Nr E).
  split; [exact H1|]. split; [exact H2|]. split; [exact H3|]. split; [exact H4|exact Hno].
Qed.

(** X5.  When the three blobs are non-empty, the private key decodes,
    the request does not, and the three variables read at the cleanup
    label that are not assigned on this path ([req_pubkey], [newcert]
    and [outbio]) are [NULL] on entry, [csr_crt] fails with a decode
    error, whether the CA certificate decodes or not: it prints the
    request line and returns no value; of the calls listed in
    [csr_crt_calls] it has made the first three only, the decoders; and
    the cleanup label has released nothing that was not live. *)
Theorem csr_crt_rejects_undecodable_request g pkey crt csr rest key :
  pkey ≠ "" → crt ≠ "" → csr ≠ "" →
  pem_rsa_private_key env pkey "replace_me" = Some key →
  pem_x509_req env csr = None →
  req_pubkey g = NULL → newcert g = NULL → outbio g = NULL →
  let out := csr_crt env (entry g (LString pkey :: LString crt :: LString csr :: rest)) in
  failed_with DecodeError out ∧
  stderr out.2 = [Described "Error can't read X509 request data into memory"] ∧
  results out = Some [] ∧
  calls out = [PEM_read_bio_RSAPrivateKey_; PEM_read_bio_X509_; PEM_read_bio_X509_REQ_] ∧
  violations (mem out.2) = [].
Proof.
  intros Np Nc Nr Hk Hr Hg1 Hg2 Hg3 out. subst out.
  destruct (csr_crt_sign_bad_request env g (LString pkey :: LString crt :: LString csr :: rest)
              pkey crt csr key Hk Hr) as (s' & E & _ & He & Ht).
  pose proof (csr_crt_sign_bad_request_clean env g
                (LString pkey :: LString crt :: LString csr :: rest) pkey crt csr key
                Hg1 Hg2 Hg3 Hk Hr) as Hno.
  rewrite E in Hno.
  destruct (csr_crt_fails_with g pkey crt csr rest s' _ 3 Np Nc Nr E He Ht)
    as (H1 & H2 & H3 & H4).
  rewrite (csr_crt_fails_cleanly env g pkey crt csr rest s' Np Nc Nr E).
  split; [exact H1|]. split; [exact H2|]. split; [exact H3|]. split; [exact H4|exact Hno].
Qed.

(** X6.  When the three blobs are non-empty, the private key and the
    request decode, the request has a subject, no library call runs out
    of resources and the CA certificate does not decode, [csr_crt] does
    not return: having printed nothing, it reads the subject of the
    certificate that is not there, in the tenth of the calls listed in
    [csr_crt_calls]. *)
Theorem csr_crt_crashes_on_undecodable_ca g pkey crt csr rest key req sn :
  pkey ≠ "" → crt ≠ "" → csr ≠ "" →
  pem_rsa_private_key env pkey "replace_me" = Some key →
  pem_x509 env crt = None →
  pem_x509_req env csr = Some req →
  r_subject req = Some sn →
  (∀ n, lib_fails env n = false) →
  let out := csr_crt env (entry g (LString pkey :: LString crt :: LString csr :: rest)) in
  out.1 = Segfault ∧
  returned out = None ∧
  stderr out.2 = [] ∧
  calls out = take 10 csr_crt_calls ∧
  last (calls out) = Some X509_get_subject_name_.
Proof.
  intros Np Nc Nr Hk Hc Hr Hsn Hf out. subst out.
  destruct (csr_crt_sign_bad_ca env g (LString pkey :: LString crt :: LString csr :: rest)
              pkey crt csr key req sn Hk Hc Hr Hsn Hf) as (s' & E & _ & He & Ht).
  destruct (csr_crt_strings env g pkey crt csr rest Np Nc Nr) as [(_ & He' & Ht') Ho].
  rewrite E in He', Ht', Ho. cbn [fst snd] in He', Ht', Ho.
  unfold returned, calls. rewrite Ho, He', Ht', He, Ht. by repeat split.
Qed.

(** X8.  When the triple is valid up to the signature, the key cannot
    sign the certificate that was built, and [outbio], the one variable
    read at the cleanup label that is not assigned on this path, is
    [NULL] on entry, [csr_crt] fails with a signing error: it prints the
    signing line and returns no value; of the calls listed in
    [csr_crt_calls] it has made the first seventeen, up to [X509_sign],
    so that the certificate is not handed to the PEM writer; and the
    cleanup label has released nothing that was not live. *)
Theorem csr_crt_signing_failure g pkey crt csr rest key ca req sn isn rk :
  pkey ≠ "" → crt ≠ "" → csr ≠ "" →
  pem_rsa_private_key env pkey "replace_me" = Some key →
  pem_x509 env crt = Some ca →
  pem_x509_req env csr = Some req →
  x_subject ca = Some isn → r_subject req = Some sn → r_pubkey req = Some rk →
  req_verify env req rk = 1%Z →
  (∀ n, lib_fails env n = false) →
  sign_cert env (to_be_signed env sn isn rk) key EVP_sha256 = None →
  outbio g = NULL →
  let out := csr_crt env (entry g (LString pkey :: LString crt :: LString csr :: rest)) in
  failed_with SigningError out ∧
  stderr out.2 = [Described "Error signing the new certificate"] ∧
  results out = Some [] ∧
  calls out = take 17 csr_crt_calls ∧
  output_cert out = None ∧
  violations (mem out.2) = [].
Proof.
  intros Np Nc Nr Hk Hc Hr Hisn Hsn Hrk Hv Hf Hs Hg out. subst out.
  pose proof (csr_crt_sign_cannot_sign_clean env g
                (LString pkey :: LString crt :: LString csr :: rest)
                pkey crt csr key ca req sn isn rk Hg Hk Hc Hr Hisn Hsn Hrk Hv Hf Hs) as Hno.
  destruct (csr_crt_sign_cannot_sign env g
              (LString pkey :: LString crt :: LString csr :: rest)
              pkey crt csr key ca req sn isn rk Hk Hc Hr Hisn Hsn Hrk Hv Hf Hs)
    as (s' & E & _ & He & Ht & Hser).
  destruct (csr_crt_fails_with g pkey crt csr rest s' _ 17 Np Nc Nr E He Ht)
    as (H1 & H2 & H3 & H4).
  split; [exact H1|]. split; [exact H2|]. split; [exact H3|]. split; [exact H4|].
  destruct (csr_crt_fails env g pkey crt csr rest s' Np Nc Nr E) as (_ & _ & _ & _ & Ht').
  split; [unfold output_cert; by rewrite Ht', Hser|].
  rewrite E in Hno. by rewrite (csr_crt_fails_cleanly env g pkey crt csr rest s' Np Nc Nr E).
Qed.

(** X9.  When the certificate is signed but cannot be printed, [csr_crt]
    fails with an encoding error: it prints the printing line and
    returns no value, although a signed certificate exists. *)
Theorem csr_crt_printing_failure g pkey crt csr rest key ca req sn isn rk sg :
  pkey ≠ "" → crt ≠ "" → csr ≠ "" →
  pem_rsa_private_key env pkey "replace_me" = Some key →
  pem_x509 env crt = Some ca →
  pem_x509_req env csr = Some req →
  x_subject ca = Some isn → r_subject req = Some sn → r_pubkey req = Some rk →
  req_verify env req rk = 1%Z →
  (∀ n, lib_fails env n = false) →
  sign_cert env (to_be_signed env sn isn rk) key EVP_sha256 = Some sg →
  pem_of_x509 env (with_signature EVP_sha256 sg (to_be_signed env sn isn rk)) = None →
  let out := csr_crt env (entry g (LString pkey :: LString crt :: LString csr :: rest)) in
  failed_with EncodingError out ∧
  stderr out.2 = [Described "Error printing the signed certificate"] ∧
  results out = Some [] ∧
  calls out = take 18 csr_crt_calls.
Proof.
  intros Np Nc Nr Hk Hc Hr Hisn Hsn Hrk Hv Hf Hs Hp out. subst out.
  destruct (csr_crt_sign_cannot_print env g
              (LString pkey :: LString crt :: LString csr :: rest)
              pkey crt csr key ca req sn isn rk sg Hk Hc Hr Hisn Hsn Hrk Hv Hf Hs Hp)
    as (s' & E & _ & He & Ht).
  exact (csr_crt_fails_with g pkey crt csr rest s' _ 18 Np Nc Nr E He Ht).
Qed.

End Stages.

(** ** Every invocation *)

Section EveryInvocation.

Context {Name Key Number : Type}.
Variable env : @Env Name Key Number.

Implicit Types s : @State Name Key Number.
Implicit Types L : list (@lua_value Number).
Implicit Types out : @Outcome Name Key Number.

(** Every invocation, described by the end of the signing block. *)
Lemma csr_crt_ends g L :
  (∃ s1 msg,
     csr_crt env (entry g L) = csr_crt__error s1 ∧
     s1 = mkState g 0 (lua s1) empty_memory [Printed msg] [] ∧
     drop 3 (lua s1) = drop 3 L ∧
     Forall2 (left_as env) (take 3 L) (take 3 (lua s1)))
  ∨ (∃ k c r L' b,
       b = csr_crt_sign env k (String.length k) c (String.length c) r (String.length r)
             (mkState g 0 L' empty_memory [] []) ∧
       take 3 L' = [LString k; LString c; LString r] ∧
       drop 3 L' = drop 3 L ∧
       Forall2 (left_as env) (take 3 L) (take 3 L') ∧
       Forall2 (read_as env) (take 3 L) [k; c; r] ∧
       sign_facts env k c r L' b ∧
       sign_ends env k c r b ∧
       success_memory b ∧
       csr_crt env (entry g L) =
       match b with
       | (Val _, s2) => csr_crt__error (with_rc 1 s2)
       | (Goto_error, s2) => csr_crt__error s2
       | (Lua_error, s2) => (Lua_error, s2)
       | (Segfault, s2) => (Segfault, s2)
       end).
Proof.
  destruct (csr_crt_kinds env g L)
    as [H|(k & c & r & L' & b & -> & _ & _ & _ & Ht & Hd & Hl & Hr & E)]; [by left|].
  right. exists k, c, r, L'. eexists. split; [reflexivity|].
  do 4 (split; [assumption|]).
  split; [apply csr_crt_sign_facts|]. split; [apply csr_crt_sign_ends|].
  split; [apply csr_crt_sign_success_memory|exact E].
Qed.

(** X10.  Whenever [csr_crt] returns no value it has printed exactly one
    line, and the line tells where it stopped: either it is a line of
    the argument checks and none of the calls listed in [csr_crt_calls]
    was made, or the calls made are the first [i + 1] of that list and
    the line is the one the source attaches to the last of them. *)
Theorem csr_crt_failure_line g L :
  let out := csr_crt env (entry g L) in
  returned out = Some 0%Z →
  (calls out = [] ∧ ∃ msg, stderr out.2 = [Printed msg])
  ∨ (∃ i msg,
       csr_crt_failure_lines !! i = Some (Some msg) ∧
       stderr out.2 = [Described msg] ∧
       calls out = take (S i) csr_crt_calls).
Proof.
  intros out. subst out. unfold returned, calls.
  destruct (csr_crt_ends g L)
    as [(s1 & msg & -> & -> & _)|(k & c & r & L' & b & -> & _ & _ & _ & Hr & F & N & _ & ->)].
  { match goal with |- context [csr_crt__error ?s] =>
      destruct (cleanup_view s) as [-> (_ & -> & ->)] end.
    intros _. left. split; [reflexivity|by eexists]. }
  destruct (csr_crt_sign env k _ c _ r _ _) as [[[]| | |] s2]; try discriminate.
  - destruct (cleanup_view (with_rc 1 s2)) as [-> _]. discriminate.
  - destruct (cleanup_view s2) as [-> (_ & -> & ->)]. intros _. right.
    destruct N as (_ & N). exact N.
Qed.

(** X11.  Whenever [csr_crt] returns a value, the first three arguments
    were read as a key blob, a CA blob and a request blob that all
    decode; the request verifies against its own key; and the
    certificate printed carries the request's subject and key, the CA
    certificate's subject as issuer, and a SHA-256 signature made with
    the decoded key over the certificate as built. *)
Theorem csr_crt_success_is_sound g L :
  let out := csr_crt env (entry g L) in
  returned out = Some 1%Z →
  ∃ k c r key ca req sn isn rk sg,
    Forall2 (read_as env) (take 3 L) [k; c; r] ∧
    pem_rsa_private_key env k "replace_me" = Some key ∧
    pem_x509 env c = Some ca ∧
    pem_x509_req env r = Some req ∧
    r_subject req = Some sn ∧ x_subject ca = Some isn ∧ r_pubkey req = Some rk ∧
    req_verify env req rk = 1%Z ∧
    sign_cert env (to_be_signed env sn isn rk) key EVP_sha256 = Some sg ∧
    output_cert out = Some (with_signature EVP_sha256 sg (to_be_signed env sn isn rk)).
Proof.
  intros out. subst out. unfold returned, output_cert.
  destruct (csr_crt_ends g L)
    as [(s1 & msg & -> & -> & _)|(k & c & r & L' & b & -> & _ & _ & _ & Hr & F & N & _ & ->)].
  { match goal with |- context [csr_crt__error ?s] =>
      destruct (cleanup_view s) as [-> _] end. discriminate. }
  destruct F as (_ & Hrc & _ & Hok & _).
  destruct (csr_crt_sign env k _ c _ r _ _) as [[[]| | |] s2]; try discriminate.
  - destruct (cleanup_view (with_rc 1 s2)) as [_ (_ & _ & ->)]. intros _.
    destruct (Hok eq_refl)
      as (key & ca & req & sn & isn & rk & sg & pem
          & Hk & Hc & Hq & Hsn & Hisn & Hrk & Hv & Hs & _ & _ & _ & _ & Hser).
    cbn [fst snd trace with_rc] in *.
    exists k, c, r, key, ca, req, sn, isn, rk, sg. rewrite Hser. by repeat split.
  - destruct (cleanup_view s2) as [-> _]. cbn [fst snd] in Hrc. rewrite Hrc. discriminate.
Qed.

(** X12.  After every invocation that returns a value, whatever the stack
    frame held on entry, one object is still allocated, the ASN1_INTEGER
    made for the serial number, and one block has been released twice,
    the buffer of the output BIO. *)
Theorem csr_crt_success_memory g L :
  let out := csr_crt env (entry g L) in
  returned out = Some 1%Z →
  heap (mem out.2) = {[ 12%N := OInteger 0 ]} ∧
  violations (mem out.2) = [DoubleFree 14%N].
Proof.
  intros out. subst out. unfold returned.
  destruct (csr_crt_ends g L)
    as [(s1 & msg & -> & -> & _)|(k & c & r & L' & b & -> & _ & _ & _ & Hr & F & N & M & ->)].
  { match goal with |- context [csr_crt__error ?s] =>
      destruct (cleanup_view s) as [-> _] end. discriminate. }
  destruct F as (_ & Hrc & _). unfold success_memory, memory_after in M.
  destruct (csr_crt_sign env k _ c _ r _ _) as [[[]| | |] s2]; try discriminate.
  - intros _. exact (M eq_refl).
  - destruct (cleanup_view s2) as [-> _]. cbn [fst snd] in Hrc. rewrite Hrc. discriminate.
Qed.

(** X20.  When [csr_crt] returns no value it has printed one line, and
    when it returns a value it has printed nothing. *)
Theorem csr_crt_prints_once_on_failure g L :
  let out := csr_crt env (entry g L) in
  (returned out = Some 0%Z → ∃ d, stderr out.2 = [d]) ∧
  (returned out = Some 1%Z → stderr out.2 = []).
Proof.
  intros out. subst out. unfold returned.
  destruct (csr_crt_ends g L)
    as [(s1 & msg & -> & -> & _)|(k & c & r & L' & b & -> & _ & _ & _ & Hr & F & N & _ & ->)].
  { match goal with |- context [csr_crt__error ?s] =>
      destruct (cleanup_view s) as [-> (_ & -> & _)] end.
    split; [by eexists|discriminate]. }
  destruct F as (Hne & Hrc & _ & Hok & Hg & Hs).
  destruct (csr_crt_sign env k _ c _ r _ _) as [[[]| | |] s2]; cbn [fst snd] in *.
  - destruct (cleanup_view (with_rc 1 s2)) as [-> (_ & -> & _)].
    split; [discriminate|]. intros _.
    by destruct (Hok eq_refl) as (? & ? & ? & ? & ? & ? & ? & ? & _ & _ & _ & _ & _ & _ & _ & _ & _ & _ & ? & _).
  - destruct (cleanup_view s2) as [-> (_ & -> & _)]. rewrite Hrc.
    split; [intros _; by destruct (Hg eq_refl) as [_ ?]|discriminate].
  - done.
  - split; discriminate.
Qed.

End EveryInvocation.

(** ** The guard before signing *)

Section Guarded.

Context {Name Key Number : Type}.
Variable env : @Env Name Key Number.

Implicit Types s : @State Name Key Number.
Implicit Types L : list (@lua_value Number).
Implicit Types out : @Outcome Name Key Number.

Lemma csr_crt_sign_guard g L k c r :
  signs_verified env r
    (csr_crt_sign env k (String.length k) c (String.length c) r (String.length r)
       (mkState g 0 L empty_memory [] [])).
Proof.
  unfold csr_crt_sign.
  repeat step.
  all: unfold signs_verified; cbn [fst snd trace fmap list_fmap ev_call].
  all: intros Hin.
  all: first
    [ by eexists _, _
    | exfalso;
      repeat (apply elem_of_cons in Hin as [Hin|Hin]; [discriminate Hin|]);
      by apply elem_of_nil in Hin ].
Qed.

(** X22.  The CA key is used only for requests that verify: in every
    invocation in which [X509_sign] is called, whatever happens next,
    the third argument was read as a request that decodes, carries a key
    and verifies against that key. *)
Theorem csr_crt_signs_only_verified_requests g L :
  let out := csr_crt env (entry g L) in
  X509_sign_ ∈ calls out →
  ∃ v r req rk,
    L !! 2 = Some v ∧ read_as env v r ∧
    pem_x509_req env r = Some req ∧ r_pubkey req = Some rk ∧
    req_verify env req rk = 1%Z.
Proof.
  intros out. subst out. unfold calls.
  destruct (csr_crt_ends env g L)
    as [(s1 & msg & -> & -> & _)|(k & c & r & L' & b & -> & _ & _ & _ & Hr & _ & _ & _ & ->)].
  { match goal with |- context [csr_crt__error ?s] =>
      destruct (cleanup_view s) as [_ (_ & _ & ->)] end.
    cbn. intros H. by apply elem_of_nil in H. }
  pose proof (csr_crt_sign_guard g L' k c r) as G. unfold signs_verified in G.
  assert (Hv : ∃ v, L !! 2 = Some v ∧ read_as env v r).
  { destruct L as [|v1 [|v2 [|v3 L]]]; cbn in Hr;
      try (by apply Forall2_length in Hr).
    exists v3. split; [done|].
    apply Forall2_cons in Hr as [_ Hr]. apply Forall2_cons in Hr as [_ Hr].
    by apply Forall2_cons in Hr as [Hr _]. }
  destruct Hv as (v & Hv & Hread).
  destruct (csr_crt_sign env k _ c _ r _ _) as [[[]| | |] s2]; cbn [fst snd] in *.
  - destruct (cleanup_view (with_rc 1 s2)) as [_ (_ & _ & ->)].
    intros H. destruct (G H) as (req & rk & ?). by exists v, r, req, rk.
  - destruct (cleanup_view s2) as [_ (_ & _ & ->)].
    intros H. destruct (G H) as (req & rk & ?). by exists v, r, req, rk.
  - intros H. destruct (G H) as (req & rk & ?). by exists v, r, req, rk.
  - intros H. destruct (G H) as (req & rk & ?). by exists v, r, req, rk.
Qed.

End Guarded.

(** ** The cleanup label *)

Section Cleanup.

Context {Name Key Number : Type}.
Variable env : @Env Name Key Number.

Implicit Types s : @State Name Key Number.
Implicit Types L : list (@lua_value Number).
Implicit Types out : @Outcome Name Key Number.

Local Abbreviation M := (@M Name Key Number).
Local Abbreviation Memory := (@Memory Name Key).
Local Abbreviation cleans_up m := (@cleans_up Name Key Number _ m).
Local Abbreviation only_releases f := (@only_releases Name Key f).

Lemma release_only_releases p : only_releases (release p).
Proof.
  intros m. unfold release. destruct (heap m !! p); cbn; [|done].
  split; [apply delete_subseteq|done].
Qed.

Lemma bad_free_only_releases p : only_releases (bad_free p).
Proof. by intros m. Qed.

Lemma only_releases_compose (f h : Memory → Memory) :
  only_releases f → only_releases h → only_releases (h ∘ f).
Proof.
  intros Hf Hh m. destruct (Hf m) as [Hf1 Hf2], (Hh (f m)) as [Hh1 Hh2]. cbn.
  split; [by etrans|congruence].
Qed.

Lemma only_releases_id : only_releases id.
Proof. by intros m. Qed.

Lemma BIO_free_all_cleans_up q : cleans_up (BIO_free_all q).
Proof.
  intros s. unfold BIO_free_all. destruct (heap (mem s) !! q) as [[]|];
    eexists tt, _; (split; [reflexivity|]);
    try apply bad_free_only_releases.
  apply (only_releases_compose (release _) (release _)); apply release_only_releases.
Qed.

Lemma EVP_PKEY_free_cleans_up q : cleans_up (EVP_PKEY_free q).
Proof.
  intros s. unfold EVP_PKEY_free. destruct (heap (mem s) !! q) as [[]|];
    eexists tt, _; (split; [reflexivity|]);
    try apply bad_free_only_releases.
  intros m. destruct (rsa =? NULL)%N.
  - apply release_only_releases.
  - apply (only_releases_compose (release _) (release _)); apply release_only_releases.
Qed.

Lemma X509_free_cleans_up q : cleans_up (X509_free q).
Proof.
  intros s. unfold X509_free. destruct (heap (mem s) !! q) as [[]|];
    eexists tt, _; (split; [reflexivity|]);
    first [apply bad_free_only_releases | apply release_only_releases].
Qed.

Lemma X509_REQ_free_cleans_up q : cleans_up (X509_REQ_free q).
Proof.
  intros s. unfold X509_REQ_free. destruct (heap (mem s) !! q) as [[]|];
    eexists tt, _; (split; [reflexivity|]);
    first [apply bad_free_only_releases | apply release_only_releases].
Qed.

Lemma cleans_up_bind {A B} (m : M A) (k : A → M B) :
  cleans_up m → (∀ a, cleans_up (k a)) → cleans_up (m ≫= k).
Proof.
  intros Hm Hk s. rewrite bind_unfold.
  destruct (Hm s) as (a & f & -> & Hf).
  destruct (Hk a (with_mem f s)) as (b & h & -> & Hh).
  exists b, (h ∘ f). split; [done|]. by apply only_releases_compose.
Qed.

Lemma cleans_up_ret {A} (a : A) : cleans_up (mret a).
Proof. intros s. exists a, id. split; [by destruct s|apply only_releases_id]. Qed.

Lemma cleans_up_var x : cleans_up (var x).
Proof.
  intros s. exists (x (frame s)), id. split; [by destruct s|apply only_releases_id].
Qed.

Lemma cleans_up_get_state : cleans_up get_state.
Proof. intros s. exists s, id. split; [by destruct s|apply only_releases_id]. Qed.

Lemma cleans_up_when b (m : M unit) : cleans_up m → cleans_up (when b m).
Proof. intros Hm. destruct b; [done | apply cleans_up_ret]. Qed.

Lemma csr_crt__error_cleans_up : cleans_up csr_crt__error.
Proof.
  unfold csr_crt__error.
  repeat first
    [ apply cleans_up_bind; [|intros ?]
    | apply cleans_up_var | apply cleans_up_get_state | apply cleans_up_ret
    | apply cleans_up_when
    | apply BIO_free_all_cleans_up | apply EVP_PKEY_free_cleans_up
    | apply X509_free_cleans_up | apply X509_REQ_free_cleans_up ].
Qed.


End Cleanup.

(** ** Stale locals and the Lua stack *)

Section StaleLocals.

Context {Name Key Number : Type}.
Variable env : @Env Name Key Number.

Implicit Types s : @State Name Key Number.
Implicit Types L : list (@lua_value Number).
Implicit Types out : @Outcome Name Key Number.

(** X18.  When [csr_crt] makes none of the calls listed in
    [csr_crt_calls], it has refused its arguments and jumped to the
    cleanup label before any of the variables read there was assigned
    and with nothing allocated: the first of them, in the order of the
    label, that is not [NULL] on entry is handed to a release function,
    and this is the first violation recorded.  The theorem says nothing
    about what follows that release. *)
Theorem csr_crt_releases_stale_locals g L :
  let out := csr_crt env (entry g L) in
  calls out = [] →
  head (violations (mem out.2)) = InvalidFree <$> head (filter (λ p, p ≠ NULL) (locals g)).
Proof.
  intros out. subst out. unfold calls.
  destruct (csr_crt_ends env g L)
    as [(s1 & msg & -> & -> & _)|(k & c & r & L' & b & -> & _ & _ & _ & Hr & F & N & _ & ->)].
  - intros _. unfold empty_memory. rewrite cleanup_of_nothing.
    cbn [fst snd mem heap violations app]. rewrite stale_free_filter.
    by destruct (filter _ _).
  - destruct N as [N _].
    destruct (csr_crt_sign env k _ c _ r _ _) as [[[]| | |] s2]; cbn [fst snd] in *.
    + destruct (cleanup_view (with_rc 1 s2)) as [_ (_ & _ & ->)]. intros E.
      by apply fmap_nil_inv in E.
    + destruct (cleanup_view s2) as [_ (_ & _ & ->)]. intros E. by apply fmap_nil_inv in E.
    + intros E. by apply fmap_nil_inv in E.
    + intros E. by apply fmap_nil_inv in E.
Qed.

(** X13.  When the nine variables read at the cleanup label are [NULL]
    on entry and [csr_crt] returns no value, the label has released
    nothing twice and nothing that was not live, whatever the arguments
    and wherever the invocation stopped. *)
Theorem csr_crt_failure_memory L :
  let out := csr_crt env (entry Toy.zeros L) in
  returned out = Some 0%Z →
  violations (mem out.2) = [].
Proof.
  intros out. subst out. unfold calls, returned.
  destruct (csr_crt_ends env Toy.zeros L)
    as [(s1 & msg & -> & -> & _)|(k & c & r & L' & b & -> & _ & _ & _ & Hr & F & N & _ & ->)].
  - intros _. unfold empty_memory. by rewrite cleanup_of_nothing.
  - pose proof (csr_crt_sign_failure_memory env L' k c r) as M.
    unfold failure_memory, memory_after in M.
    destruct F as (_ & Hrc & _).
    destruct (csr_crt_sign env k _ c _ r _ _) as [[[]| | |] s2]; cbn [fst snd] in *;
      try discriminate.
    + destruct (cleanup_view (with_rc 1 s2)) as [-> _]. discriminate.
    + intros _. by destruct (M eq_refl) as [Hv _].
Qed.

(** X16.  [csr_crt] never removes or reorders what is on the Lua stack:
    when it returns, the stack is the arguments, with numbers among the
    first three possibly replaced by their text, followed by the values
    returned. *)
Theorem csr_crt_keeps_the_stack g L n :
  let out := csr_crt env (entry g L) in
  returned out = Some n →
  ∃ L' rs,
    lua out.2 = L' ++ rs ∧
    results out = Some rs ∧ length rs = Z.to_nat n ∧
    length L' = length L ∧
    drop 3 L' = drop 3 L ∧
    Forall2 (left_as env) (take 3 L) (take 3 L').
Proof.
  intros out Hn. subst out. pose proof (returned_Val _ _ Hn) as Hv. clear Hn.
  assert (Hlen : ∀ L', drop 3 L' = drop 3 L →
                       Forall2 (left_as env) (take 3 L) (take 3 L') →
                       length L' = length L).
  { intros L' Hd Hf. apply Forall2_length in Hf. apply (f_equal length) in Hd.
    rewrite !length_drop in Hd. rewrite !length_take in Hf. lia. }
  destruct (csr_crt_ends env g L)
    as [(s1 & msg & E & Hs1 & Hd & Hl)
       |(k & c & r & L' & b & -> & _ & Hd & Hl & _ & F & _ & _ & E)];
    rewrite E in Hv |- *; clear E.
  - destruct (cleanup_view s1) as [Hv' (Hlua & _)].
    apply (f_equal rc) in Hs1. cbn [rc] in Hs1. rewrite Hs1 in Hv'.
    rewrite Hv' in Hv. injection Hv as <-.
    exists (lua s1), []. rewrite app_nil_r.
    split; [exact Hlua|]. split; [by apply results_none|]. auto.
  - destruct F as (Hne & Hrc & _ & Hok & Hg & _).
    destruct (csr_crt_sign env k _ c _ r _ _) as [[[]| | |] s2]; cbn [fst snd] in *;
      try discriminate Hv.
    + destruct (cleanup_view (with_rc 1 s2)) as [Hv' (Hlua & _)].
      rewrite Hv' in Hv. injection Hv as <-.
      destruct (Hok eq_refl)
        as (? & ? & ? & ? & ? & ? & ? & ? & _ & _ & _ & _ & _ & _ & _ & _ & _ & Hpush & _).
      eexists L', [_].
      split; [rewrite Hlua; exact Hpush|].
      split; [eapply results_pushed; [exact Hv'|rewrite Hlua; exact Hpush]|]. auto.
    + destruct (cleanup_view s2) as [Hv' (Hlua & _)].
      rewrite Hv' in Hv. injection Hv as <-. rewrite Hrc in Hv'.
      destruct (Hg eq_refl) as [Hsame _].
      exists L', []. rewrite app_nil_r.
      split; [by rewrite Hlua|]. split; [by apply results_none|]. rewrite Hrc. auto.
Qed.

End StaleLocals.

(** ** Running out of resources *)

Section Resources.

Context {Name Key Number : Type}.
Variable env : @Env Name Key Number.

Implicit Types s : @State Name Key Number.
Implicit Types L : list (@lua_value Number).
Implicit Types out : @Outcome Name Key Number.

Lemma csr_crt_sign_out_of_resources g L k c r key ca req sn isn rk n msg :
  pem_rsa_private_key env k "replace_me" = Some key →
  pem_x509 env c = Some ca →
  pem_x509_req env r = Some req →
  x_subject ca = Some isn → r_subject req = Some sn → r_pubkey req = Some rk →
  req_verify env req rk = 1%Z →
  may_run_out <$> csr_crt_calls !! n = Some true →
  lib_fails env n = true →
  (∀ m, m < n → lib_fails env m = false) →
  csr_crt_failure_lines !! n = Some (Some msg) →
  ∃ s', csr_crt_sign env k (String.length k) c (String.length c) r (String.length r)
          (mkState g 0 L empty_memory [] []) = (Goto_error, s')
        ∧ lua s' = L
        ∧ stderr s' = [Described msg]
        ∧ ev_call <$> trace s' = take (S n) csr_crt_calls.
Proof.
  intros Hk Hc Hr Hisn Hsn Hrk Hv Hmay Hn Hlt Hmsg.
  unfold csr_crt_calls in Hmay.
  split_lookup n Hmay; try discriminate Hmay; clear Hmay.
  all: cbn in Hmsg; injection Hmsg as <-.
  all: match type of Hn with lib_fails _ ?n = _ => below Hlt n end.
  all: run_sign; by eexists.
Qed.

(** X21.  When the triple is valid, the library runs out of resources
    in one of the calls that build the certificate, the [n + 1]-th of
    the calls listed in [csr_crt_calls], and [req_pubkey] and [outbio],
    the variables read at the cleanup label that may not be assigned on
    this path, are [NULL] on entry, [csr_crt] fails with a build error:
    it prints the line the source attaches to that call and returns no
    value; of the calls listed it has made the first [n + 1] and no
    other; and the cleanup label has released nothing that was not
    live. *)
Theorem csr_crt_out_of_resources g pkey crt csr rest key ca req sn isn rk n msg :
  pkey ≠ "" → crt ≠ "" → csr ≠ "" →
  pem_rsa_private_key env pkey "replace_me" = Some key →
  pem_x509 env crt = Some ca →
  pem_x509_req env csr = Some req →
  x_subject ca = Some isn → r_subject req = Some sn → r_pubkey req = Some rk →
  req_verify env req rk = 1%Z →
  may_run_out <$> csr_crt_calls !! n = Some true →
  lib_fails env n = true →
  (∀ m, m < n → lib_fails env m = false) →
  csr_crt_failure_lines !! n = Some (Some msg) →
  req_pubkey g = NULL → outbio g = NULL →
  let out := csr_crt env (entry g (LString pkey :: LString crt :: LString csr :: rest)) in
  failed_with BuildError out ∧
  stderr out.2 = [Described msg] ∧
  results out = Some [] ∧
  calls out = take (S n) csr_crt_calls ∧
  violations (mem out.2) = [].
Proof.
  intros Np Nc Nr Hk Hc Hr Hisn Hsn Hrk Hv Hmay Hn Hlt Hmsg Hg1 Hg2 out. subst out.
  pose proof (csr_crt_sign_out_of_resources_clean env g
                (LString pkey :: LString crt :: LString csr :: rest)
                pkey crt csr key ca req sn isn rk n
                Hg1 Hg2 Hk Hc Hr Hisn Hsn Hrk Hv Hmay Hn Hlt) as Hno.
  destruct (csr_crt_sign_out_of_resources g
              (LString pkey :: LString crt :: LString csr :: rest)
              pkey crt csr key ca req sn isn rk n msg
              Hk Hc Hr Hisn Hsn Hrk Hv Hmay Hn Hlt Hmsg)
    as (s' & E & _ & He & Ht).
  destruct (csr_crt_fails_with env g pkey crt csr rest s' _ (S n) Np Nc Nr E He Ht)
    as (H1 & H2 & H3 & H4).
  rewrite E in Hno.
  rewrite (csr_crt_fails_cleanly env g pkey crt csr rest s' Np Nc Nr E).
  split; [|by repeat split].
  destruct H1 as (H1 & d & Hd & _). split; [exact H1|]. exists d. split; [exact Hd|].
  rewrite H2 in Hd. injection Hd as <-.
  unfold csr_crt_calls in Hmay. unfold csr_crt_failure_lines in Hmsg.
  split_lookup n Hmay; try discriminate Hmay; cbn in Hmsg; by injection Hmsg as <-.
Qed.

End Resources.

(** ** init_crypto *)

Section InitCrypto.

Context {Number : Type}.

Implicit Types p : Process.
Implicit Types args : list (@lua_value Number).

(** X19.  [init_crypto] returns no value, and has no memory of having
    run: over any sequence of calls, the three registrations are made
    once, in the same order, for every call without arguments, and one
    line is printed, and nothing registered, for every call with
    arguments. *)
Theorem init_crypto_calls_register (invocations : list (list (@lua_value Number))) p :
  (∀ args q, (init_crypto args q).1 = 0%Z) ∧
  p_setup (init_crypto_calls invocations p)
  = p_setup p ++
    (filter (λ args, length args = 0) invocations
     ≫= λ _, [OpenSSL_add_all_algorithms_; ERR_load_BIO_strings_; ERR_load_crypto_strings_]) ∧
  p_stderr (init_crypto_calls invocations p)
  = p_stderr p ++
    (filter (λ args, length args ≠ 0) invocations
     ≫= λ _, [Printed "you must not pass arguments"]).
Proof.
  split.
  { intros args q. unfold init_crypto. by destruct (0 <? length args)%nat. }
  revert p. induction invocations as [|args l IH]; intros p.
  { cbn. by rewrite !app_nil_r. }
  unfold init_crypto_calls in *. cbn [foldl].
  destruct (IH (init_crypto args p).2) as [-> ->]. rewrite !filter_cons.
  unfold init_crypto. destruct args as [|a args]; cbn -[filter].
  - rewrite decide_True by done. rewrite decide_False by (intros H; by apply H).
    cbn -[filter]. by rewrite <- !(assoc_L (++)).
  - rewrite decide_False by done. rewrite decide_True by done.
    cbn -[filter]. by rewrite <- !(assoc_L (++)).
Qed.

End InitCrypto.

(** ** Runs on the small library *)

(** C1 on the small library: the valid triple is signed, the
    certificate is pushed, and the buffer it was printed to is released
    twice.  The variables hold stale pointers on entry. *)
Lemma csr_crt_valid_request_is_signed_then_freed_twice_witness :
  let args := [LString Toy.key_pem; LString Toy.crt_pem; LString Toy.csr_pem] in
  ∃ s2 cert pem,
    csr_crt_sign (Toy.lib Toy.still)
      Toy.key_pem (String.length Toy.key_pem) Toy.crt_pem (String.length Toy.crt_pem)
      Toy.csr_pem (String.length Toy.csr_pem)
      (mkState Faulty.stale 0 args empty_memory [] []) = (Val tt, s2) ∧
    serialised (trace s2) = [cert] ∧
    pem_of_x509 (Toy.lib Toy.still) cert = Some pem ∧
    lua s2 = args ++ [LString (pem +:+ String (beyond (Toy.lib Toy.still) 0) "")] ∧
    x_issuer cert = x_subject Toy.ca_cert ∧
    x_subject cert = Some "CN=alice" ∧
    x_pubkey cert = Some "alice-public" ∧
    violations (mem s2) = [] ∧
    csr_crt (Toy.lib Toy.still) (entry Faulty.stale args) = csr_crt__error (with_rc 1 s2) ∧
    violations (mem (csr_crt__error (with_rc 1 s2)).2) = [DoubleFree 14%N].
Proof.
  cbv zeta.
  apply (csr_crt_valid_request_is_signed_then_freed_twice (Toy.lib Toy.still) Faulty.stale
           Toy.key_pem Toy.crt_pem Toy.csr_pem [] "ca-private" Toy.ca_cert
           (mkX509_REQ (Some "CN=alice") (Some "alice-public") "alice")
           "CN=alice" "CN=ca" "alice-public").
  all: try discriminate.
  all: try reflexivity.
  all: intros; eexists; reflexivity.
Defined.



(** C3 as stated fails: on the valid triple the certificate is created
    and five of its fields are assigned before the request is verified,
    so the stages do not run in the order Decoded, Verified, Built,
    Signed. *)
Lemma certificate_fields_assigned_before_verification :
  calls (Toy.run Toy.still Toy.key_pem Toy.crt_pem Toy.csr_pem) = csr_crt_calls ∧
  csr_crt_calls !! 4 = Some X509_set_version_ ∧
  csr_crt_calls !! 12 = Some X509_REQ_verify_ ∧
  stages_in_order (calls (Toy.run Toy.still Toy.key_pem Toy.crt_pem Toy.csr_pem)) = false.
Proof. by vm_compute. Qed.

(** C4: with a CA blob that does not decode, a good key and a good
    request, [csr_crt] prints nothing, creates the certificate, assigns
    version, key, serial number and subject, and then reads the subject
    of the certificate that is not there. *)
Theorem malformed_ca_certificate_reaches_the_builder :
  Toy.parse_crt "not a certificate" = None ∧
  (Toy.run Toy.still Toy.key_pem "not a certificate" Toy.csr_pem).1 = Segfault ∧
  stderr (Toy.run Toy.still Toy.key_pem "not a certificate" Toy.csr_pem).2 = [] ∧
  calls (Toy.run Toy.still Toy.key_pem "not a certificate" Toy.csr_pem)
  = take 10 csr_crt_calls.
Proof. by vm_compute. Qed.

(** C5 as stated fails: when the clock advances between the two
    readings, the validity is one second longer than 31,536,000. *)
Lemma validity_is_longer_when_the_clock_ticks :
  returned (Toy.run Toy.ticking Toy.key_pem Toy.crt_pem Toy.csr_pem) = Some 1%Z ∧
  output_cert (Toy.run Toy.ticking Toy.key_pem Toy.crt_pem Toy.csr_pem) ≫= x_notBefore
  = Some 1700000014%Z ∧
  output_cert (Toy.run Toy.ticking Toy.key_pem Toy.crt_pem Toy.csr_pem) ≫= x_notAfter
  = Some 1731536015%Z ∧
  (1731536015 ≠ 1700000014 + 31536000)%Z.
Proof. by vm_compute. Qed.

(** C5 on the small library. *)
Lemma csr_crt_validity_witness :
  ∃ cert,
    output_cert (Toy.run Toy.ticking Toy.key_pem Toy.crt_pem Toy.csr_pem) = Some cert ∧
    x_notBefore cert = Some 1700000014%Z ∧
    x_notAfter cert = Some (1700000015 + 31536000)%Z ∧
    (Toy.ticking 15 = Toy.ticking 14 →
     x_notAfter cert = (λ t, t + 31536000)%Z <$> x_notBefore cert).
Proof.
  apply (csr_crt_validity (Toy.lib Toy.ticking) Toy.zeros
           [LString Toy.key_pem; LString Toy.crt_pem; LString Toy.csr_pem]).
  vm_compute. reflexivity.
Defined.

(** C6 on the small library. *)
Lemma csr_crt_version_and_serial_witness :
  ∃ cert,
    output_cert (Toy.run Toy.still Toy.key_pem Toy.crt_pem Toy.csr_pem) = Some cert ∧
    x_version cert = Some 2%Z ∧ x509_version_denoted 2 = 3%Z ∧
    x_serialNumber cert = Some 0%Z.
Proof.
  apply (csr_crt_version_and_serial (Toy.lib Toy.still) Toy.zeros
           [LString Toy.key_pem; LString Toy.crt_pem; LString Toy.csr_pem]).
  vm_compute. reflexivity.
Defined.

(** C7 on the small library. *)
Lemma csr_crt_output_length_witness :
  ∃ cert pem x,
    output_cert (Toy.run Toy.still Toy.key_pem Toy.crt_pem Toy.csr_pem) = Some cert ∧
    pem_of_x509 (Toy.lib Toy.still) cert = Some pem ∧
    results (Toy.run Toy.still Toy.key_pem Toy.crt_pem Toy.csr_pem) = Some [LString x] ∧
    String.length x = String.length pem + 1 ∧
    x = pem +:+ String (beyond (Toy.lib Toy.still) 0) "".
Proof.
  apply (csr_crt_output_length (Toy.lib Toy.still) Toy.zeros
           [LString Toy.key_pem; LString Toy.crt_pem; LString Toy.csr_pem]).
  vm_compute. reflexivity.
Defined.


(** C9: after a successful run, started on a frame of zeros, the
    ASN1_INTEGER made for the serial number (address 12) is still
    allocated, and the BUF_MEM of the output BIO (address 14), released by
    [BUF_MEM_free], is released again by [BIO_free_all]. *)
Theorem successful_run_leaks_the_serial_and_frees_the_buffer_twice :
  returned (Toy.run Toy.still Toy.key_pem Toy.crt_pem Toy.csr_pem) = Some 1%Z ∧
  heap (mem (Toy.run Toy.still Toy.key_pem Toy.crt_pem Toy.csr_pem).2)
  = {[ 12%N := OInteger 0 ]} ∧
  violations (mem (Toy.run Toy.still Toy.key_pem Toy.crt_pem Toy.csr_pem).2)
  = [DoubleFree 14%N].
Proof. by vm_compute. Qed.

(** C10: with a CA blob that does not decode, a good key and a good
    request, [csr_crt] does not return to its caller. *)
Theorem malformed_ca_certificate_does_not_return :
  returned (Toy.run Toy.still Toy.key_pem "not a certificate" Toy.csr_pem) = None ∧
  results (Toy.run Toy.still Toy.key_pem "not a certificate" Toy.csr_pem) = None.
Proof. by vm_compute. Qed.

(** ** Runs on the small library, continued *)

(** X1 on the small library: two arguments. *)
Lemma csr_crt_needs_three_arguments_witness :
  let L := [LString Toy.key_pem; LString Toy.crt_pem] in
  let out := csr_crt (Toy.lib Toy.still) (entry Toy.zeros L) in
  returned out = Some 0%Z ∧
  results out = Some [] ∧
  lua out.2 = L ∧
  stderr out.2 = [Printed "you must pass one argument: (priv_key, csr)!"] ∧
  calls out = [] ∧
  mem out.2 = empty_memory.
Proof.
  cbv zeta.
  apply (csr_crt_needs_three_arguments (Toy.lib Toy.still) Toy.zeros
           [LString Toy.key_pem; LString Toy.crt_pem]).
  - simpl. lia.
  - repeat constructor.
Defined.

(** X2 on the small library: a nil in the place of the CA certificate. *)
Lemma csr_crt_rejects_non_string_witness :
  let L := [LString Toy.key_pem; LNil; LString Toy.csr_pem] in
  let out := csr_crt (Toy.lib Toy.still) (entry Toy.zeros L) in
  returned out = Some 0%Z ∧
  results out = Some [] ∧
  lua out.2 = L ∧
  stderr out.2 = [Printed "second argument must be string: crt!"] ∧
  calls out = [] ∧
  mem out.2 = empty_memory.
Proof.
  cbv zeta.
  apply (csr_crt_rejects_non_string (Toy.lib Toy.still) Toy.zeros
           [Toy.key_pem] LNil [LString Toy.csr_pem]
           "second argument must be string: crt!").
  - repeat constructor. discriminate.
  - reflexivity.
  - discriminate.
  - discriminate.
  - simpl. lia.
  - repeat constructor.
Defined.

(** X3 on the small library: the number 5 in the place of the key. *)
Lemma csr_crt_reads_number_as_string_witness :
  csr_crt (Toy.lib Toy.still)
    (entry Toy.zeros [LNumber 5%Z; LString Toy.crt_pem; LString Toy.csr_pem])
  = csr_crt (Toy.lib Toy.still)
      (entry Toy.zeros [LString "0"; LString Toy.crt_pem; LString Toy.csr_pem]).
Proof.
  apply (csr_crt_reads_number_as_string (Toy.lib Toy.still) Toy.zeros
           [] 5%Z [LString Toy.crt_pem; LString Toy.csr_pem]).
  - constructor.
  - simpl. lia.
  - simpl. lia.
Defined.

(** X4 on the small library: a key blob that is not a key.  Of the
    variables, [pkeybio] holds a stale pointer on entry. *)
Lemma csr_crt_rejects_undecodable_key_witness :
  let out := csr_crt (Toy.lib Toy.still)
               (entry (mkFrame 7%N NULL NULL NULL NULL NULL NULL NULL NULL)
                  [LString "not a key"; LString Toy.crt_pem; LString Toy.csr_pem]) in
  failed_with DecodeError out ∧
  stderr out.2 = [Described "Failed to create key bio"] ∧
  results out = Some [] ∧
  calls out = [PEM_read_bio_RSAPrivateKey_] ∧
  violations (mem out.2) = [].
Proof.
  cbv zeta.
  apply (csr_crt_rejects_undecodable_key (Toy.lib Toy.still)
           (mkFrame 7%N NULL NULL NULL NULL NULL NULL NULL NULL)
           "not a key" Toy.crt_pem Toy.csr_pem []).
  all: try discriminate.
  - reflexivity.
  - repeat constructor.
Defined.

(** X5 on the small library: neither the CA blob nor the request blob
    decodes.  The variables assigned on this path hold stale pointers on
    entry. *)
Lemma csr_crt_rejects_undecodable_request_witness :
  let out := csr_crt (Toy.lib Toy.still)
               (entry (mkFrame 7%N 5%N 7%N 40%N NULL 2%N 3%N NULL NULL)
                  [LString Toy.key_pem; LString "not a certificate"; LString "not a request"]) in
  failed_with DecodeError out ∧
  stderr out.2 = [Described "Error can't read X509 request data into memory"] ∧
  results out = Some [] ∧
  calls out = [PEM_read_bio_RSAPrivateKey_; PEM_read_bio_X509_; PEM_read_bio_X509_REQ_] ∧
  violations (mem out.2) = [].
Proof.
  cbv zeta.
  apply (csr_crt_rejects_undecodable_request (Toy.lib Toy.still)
           (mkFrame 7%N 5%N 7%N 40%N NULL 2%N 3%N NULL NULL)
           Toy.key_pem "not a certificate" "not a request" [] "ca-private").
  all: try discriminate.
  all: reflexivity.
Defined.

(** X6 on the small library. *)
Lemma csr_crt_crashes_on_undecodable_ca_witness :
  let out := Toy.run Toy.still Toy.key_pem "not a certificate" Toy.csr_pem in
  out.1 = Segfault ∧
  returned out = None ∧
  stderr out.2 = [] ∧
  calls out = take 10 csr_crt_calls ∧
  last (calls out) = Some X509_get_subject_name_.
Proof.
  cbv zeta.
  apply (csr_crt_crashes_on_undecodable_ca (Toy.lib Toy.still) Toy.zeros
           Toy.key_pem "not a certificate" Toy.csr_pem [] "ca-private"
           (mkX509_REQ (Some "CN=alice") (Some "alice-public") "alice") "CN=alice").
  all: try discriminate.
  all: reflexivity.
Defined.

(** X8 on the small library, with a key that cannot sign.  The
    variables hold stale pointers on entry, except [outbio]. *)
Lemma csr_crt_signing_failure_witness :
  let out := csr_crt Faulty.cannot_sign
               (entry (mkFrame 7%N 5%N 7%N 40%N 9%N 2%N 3%N 8%N NULL)
                  [LString Toy.key_pem; LString Toy.crt_pem; LString Toy.csr_pem]) in
  failed_with SigningError out ∧
  stderr out.2 = [Described "Error signing the new certificate"] ∧
  results out = Some [] ∧
  calls out = take 17 csr_crt_calls ∧
  output_cert out = None ∧
  violations (mem out.2) = [].
Proof.
  cbv zeta.
  apply (csr_crt_signing_failure Faulty.cannot_sign
           (mkFrame 7%N 5%N 7%N 40%N 9%N 2%N 3%N 8%N NULL)
           Toy.key_pem Toy.crt_pem Toy.csr_pem [] "ca-private" Toy.ca_cert
           (mkX509_REQ (Some "CN=alice") (Some "alice-public") "alice")
           "CN=alice" "CN=ca" "alice-public").
  all: try discriminate.
  all: reflexivity.
Defined.

(** X9 on the small library, when certificates cannot be printed. *)
Lemma csr_crt_printing_failure_witness :
  let out := csr_crt Faulty.cannot_print
               (entry Toy.zeros [LString Toy.key_pem; LString Toy.crt_pem; LString Toy.csr_pem]) in
  failed_with EncodingError out ∧
  stderr out.2 = [Described "Error printing the signed certificate"] ∧
  results out = Some [] ∧
  calls out = take 18 csr_crt_calls.
Proof.
  cbv zeta.
  apply (csr_crt_printing_failure Faulty.cannot_print Toy.zeros
           Toy.key_pem Toy.crt_pem Toy.csr_pem [] "ca-private" Toy.ca_cert
           (mkX509_REQ (Some "CN=alice") (Some "alice-public") "alice")
           "CN=alice" "CN=ca" "alice-public" "signed-with:ca-private").
  all: try discriminate.
  all: reflexivity.
Defined.

(** X10 on the small library: the tampered request. *)
Lemma csr_crt_failure_line_witness :
  let out := Toy.run Toy.still Toy.key_pem Toy.crt_pem Toy.tampered_csr_pem in
  (calls out = [] ∧ ∃ msg, stderr out.2 = [Printed msg])
  ∨ (∃ i msg,
       csr_crt_failure_lines !! i = Some (Some msg) ∧
       stderr out.2 = [Described msg] ∧
       calls out = take (S i) csr_crt_calls).
Proof.
  cbv zeta.
  apply (csr_crt_failure_line (Toy.lib Toy.still) Toy.zeros
           [LString Toy.key_pem; LString Toy.crt_pem; LString Toy.tampered_csr_pem]).
  vm_compute. reflexivity.
Defined.

(** X11 on the small library. *)
Lemma csr_crt_success_is_sound_witness :
  let L := [LString Toy.key_pem; LString Toy.crt_pem; LString Toy.csr_pem] in
  let out := csr_crt (Toy.lib Toy.still) (entry Toy.zeros L) in
  ∃ k c r key ca req sn isn rk sg,
    Forall2 (read_as (Toy.lib Toy.still)) (take 3 L) [k; c; r] ∧
    pem_rsa_private_key (Toy.lib Toy.still) k "replace_me" = Some key ∧
    pem_x509 (Toy.lib Toy.still) c = Some ca ∧
    pem_x509_req (Toy.lib Toy.still) r = Some req ∧
    r_subject req = Some sn ∧ x_subject ca = Some isn ∧ r_pubkey req = Some rk ∧
    req_verify (Toy.lib Toy.still) req rk = 1%Z ∧
    sign_cert (Toy.lib Toy.still) (to_be_signed (Toy.lib Toy.still) sn isn rk) key EVP_sha256
    = Some sg ∧
    output_cert out
    = Some (with_signature EVP_sha256 sg (to_be_signed (Toy.lib Toy.still) sn isn rk)).
Proof.
  cbv zeta.
  apply (csr_crt_success_is_sound (Toy.lib Toy.still) Toy.zeros
           [LString Toy.key_pem; LString Toy.crt_pem; LString Toy.csr_pem]).
  vm_compute. reflexivity.
Defined.

(** X12 on the small library, on a stack frame that holds stale
    pointers. *)
Lemma csr_crt_success_memory_witness :
  let out := csr_crt (Toy.lib Toy.still)
               (entry Faulty.stale [LString Toy.key_pem; LString Toy.crt_pem; LString Toy.csr_pem]) in
  heap (mem out.2) = {[ 12%N := OInteger 0 ]} ∧
  violations (mem out.2) = [DoubleFree 14%N].
Proof.
  cbv zeta.
  apply (csr_crt_success_memory (Toy.lib Toy.still) Faulty.stale
           [LString Toy.key_pem; LString Toy.crt_pem; LString Toy.csr_pem]).
  vm_compute. reflexivity.
Defined.

(** X13 on the small library, when the subject cannot be set for lack of
    resources. *)
Lemma csr_crt_failure_memory_witness :
  let out := csr_crt (Faulty.out_of_resources 8)
               (entry Toy.zeros [LString Toy.key_pem; LString Toy.crt_pem; LString Toy.csr_pem]) in
  violations (mem out.2) = [].
Proof.
  cbv zeta.
  apply (csr_crt_failure_memory (Faulty.out_of_resources 8)
           [LString Toy.key_pem; LString Toy.crt_pem; LString Toy.csr_pem]).
  vm_compute. reflexivity.
Defined.

(** X15 on the small library. *)
Lemma csr_crt_return_shape_witness :
  (1 = 0 ∧ results (Toy.run Toy.still Toy.key_pem Toy.crt_pem Toy.csr_pem) = Some [])%Z
  ∨ (1 = 1 ∧ ∃ x, results (Toy.run Toy.still Toy.key_pem Toy.crt_pem Toy.csr_pem)
                 = Some [LString x])%Z.
Proof.
  apply (csr_crt_return_shape (Toy.lib Toy.still) Toy.zeros
           [LString Toy.key_pem; LString Toy.crt_pem; LString Toy.csr_pem] 1%Z).
  vm_compute. reflexivity.
Defined.

(** X16 on the small library: a number as key and a fourth argument. *)
Lemma csr_crt_keeps_the_stack_witness :
  let L := [LNumber 5%Z; LString Toy.crt_pem; LString Toy.csr_pem; LBoolean true] in
  let out := csr_crt (Toy.lib Toy.still) (entry Toy.zeros L) in
  ∃ L' rs,
    lua out.2 = L' ++ rs ∧
    results out = Some rs ∧ length rs = Z.to_nat 0 ∧
    length L' = length L ∧
    drop 3 L' = drop 3 L ∧
    Forall2 (left_as (Toy.lib Toy.still)) (take 3 L) (take 3 L').
Proof.
  cbv zeta.
  apply (csr_crt_keeps_the_stack (Toy.lib Toy.still) Toy.zeros
           [LNumber 5%Z; LString Toy.crt_pem; LString Toy.csr_pem; LBoolean true] 0%Z).
  vm_compute. reflexivity.
Defined.


(** X18 on the small library: no argument at all, on a stack frame that
    holds stale pointers. *)
Lemma csr_crt_releases_stale_locals_witness :
  head (violations (mem (csr_crt (Toy.lib Toy.still) (entry Faulty.stale [])).2))
  = Some (InvalidFree 7%N).
Proof.
  apply (csr_crt_releases_stale_locals (Toy.lib Toy.still) Faulty.stale []).
  vm_compute. reflexivity.
Defined.

(** X21 on the small library, when the subject cannot be set.  The
    variables assigned on this path hold stale pointers on entry. *)
Lemma csr_crt_out_of_resources_witness :
  let out := csr_crt (Faulty.out_of_resources 8)
               (entry (mkFrame 7%N 5%N 7%N 40%N NULL 2%N 3%N 8%N NULL)
                  [LString Toy.key_pem; LString Toy.crt_pem; LString Toy.csr_pem]) in
  failed_with BuildError out ∧
  stderr out.2 = [Described "Error setting subject name of certificate"] ∧
  results out = Some [] ∧
  calls out = take 9 csr_crt_calls ∧
  violations (mem out.2) = [].
Proof.
  cbv zeta.
  apply (csr_crt_out_of_resources (Faulty.out_of_resources 8)
           (mkFrame 7%N 5%N 7%N 40%N NULL 2%N 3%N 8%N NULL)
           Toy.key_pem Toy.crt_pem Toy.csr_pem [] "ca-private" Toy.ca_cert
           (mkX509_REQ (Some "CN=alice") (Some "alice-public") "alice")
           "CN=alice" "CN=ca" "alice-public" 8
           "Error setting subject name of certificate").
  all: try discriminate.
  all: try reflexivity.
  intros m Hm. do 8 (destruct m as [|m]; [reflexivity|]). lia.
Defined.

(** X22 on the small library, with a key that cannot sign. *)
Lemma csr_crt_signs_only_verified_requests_witness :
  ∃ v r req rk,
    [LString Toy.key_pem; LString Toy.crt_pem; LString Toy.csr_pem] !! 2 = Some v ∧
    read_as Faulty.cannot_sign v r ∧
    pem_x509_req Faulty.cannot_sign r = Some req ∧ r_pubkey req = Some rk ∧
    req_verify Faulty.cannot_sign req rk = 1%Z.
Proof.
  apply (csr_crt_signs_only_verified_requests Faulty.cannot_sign Toy.zeros
           [LString Toy.key_pem; LString Toy.crt_pem; LString Toy.csr_pem]).
  vm_compute. do 16 apply list_elem_of_further. apply list_elem_of_here.
Defined.
